(** * stock_news: a shallow embedding of [run_automation.py]

    The script is a single pass: pick a mode from the weekday, collect data
    (a Nasdaq snapshot or scraped headlines), ask a text model for a post,
    parse the answer into a title and a body, and publish it.

    Python [str] values are sequences of Unicode code points, and
    [str.strip] trims by the Unicode whitespace table, so strings are
    modelled as lists of code points ([N]) and not as byte strings.
    Prices are numpy [float64] values, modelled by the Standard Library's
    IEEE-754 specification [spec_float] at precision 53, exponent 1024. *)

From Stdlib Require Import ZArith NArith List String Ascii Bool Lia.
From Stdlib Require Import Floats.SpecFloat.
Import ListNotations.

Set Implicit Arguments.

(** ** Python strings *)

Definition pystr := list N.

(** An ASCII literal of the script, as code points. *)
Definition py (s : string) : pystr :=
  List.map N_of_ascii (list_ascii_of_string s).

Definition nl : N := 10%N.

(** [bool(s)] for a string: the empty string is falsy. *)
Definition truthy (s : pystr) : bool :=
  match s with [] => false | _ :: _ => true end.

(** [bool(x)] for a value that is a string or [None]. *)
Definition truthy_opt (x : option pystr) : bool :=
  match x with None => false | Some s => truthy s end.

(** [s.startswith(prefix)] *)
Fixpoint startswith (s prefix : pystr) {struct prefix} : bool :=
  match prefix, s with
  | [], _ => true
  | _ :: _, [] => false
  | p :: prefix', c :: s' => N.eqb c p && startswith s' prefix'
  end.

(** [c.isspace()] for one code point: the table CPython's [str.strip()]
    uses when it is called without an argument. *)
Definition isspace (c : N) : bool :=
  ((9 <=? c) && (c <=? 13) ||
   (28 <=? c) && (c <=? 32) ||
   (c =? 133) || (c =? 160) || (c =? 5760) ||
   (8192 <=? c) && (c <=? 8202) ||
   (c =? 8232) || (c =? 8233) || (c =? 8239) || (c =? 8287) ||
   (c =? 12288))%N.

Fixpoint lstrip (s : pystr) : pystr :=
  match s with
  | [] => []
  | c :: s' => if isspace c then lstrip s' else s
  end.

Definition rstrip (s : pystr) : pystr := rev (lstrip (rev s)).

(** [s.strip()] *)
Definition strip (s : pystr) : pystr := rstrip (lstrip s).

(** A run of whitespace, as [strip] sees it. *)
Definition all_space (ws : pystr) : Prop :=
  Forall (fun c => isspace c = true) ws.

(** [sep.join(parts)] for the one-character separator ["\n"]. *)
Fixpoint join_nl (parts : list pystr) : pystr :=
  match parts with
  | [] => []
  | [p] => p
  | p :: rest => p ++ nl :: join_nl rest
  end.

(** [text.split('\n')]: never empty; [n] newlines give [n + 1] parts. *)
Fixpoint split_nl (text : pystr) : list pystr :=
  match text with
  | [] => [[]]
  | c :: text' =>
      if N.eqb c nl then [] :: split_nl text'
      else match split_nl text' with
           | [] => [[c]]
           | l :: ls => (c :: l) :: ls
           end
  end.

Definition colon : N := 58%N.

(** [line.split(':', 1)[1]]: what follows the first colon.  Indexing
    at 1 raises [IndexError] when the line has no colon ([None] here). *)
Fixpoint after_first_colon (line : pystr) : option pystr :=
  match line with
  | [] => None
  | c :: line' => if N.eqb c colon then Some line' else after_first_colon line'
  end.

(** ** Outcomes, configuration and the trace of a run *)

Inductive result (A : Type) :=
| Ok (a : A)
| Raise.
Arguments Raise {A}.

(** [datetime.weekday()]: Monday is 0 and Sunday is 6. *)
Inductive dayname :=
| Monday | Tuesday | Wednesday | Thursday | Friday | Saturday | Sunday.

Definition weekday (d : dayname) : Z :=
  match d with
  | Monday => 0 | Tuesday => 1 | Wednesday => 2 | Thursday => 3
  | Friday => 4 | Saturday => 5 | Sunday => 6
  end.

(** [datetime.isoweekday()]: Monday is 1 and Sunday is 7. *)
Definition isoweekday (d : dayname) : Z := weekday d + 1.

Inductive mode := NEWS | MARKET.

(** [x in xs] for a list of integers. *)
Definition in_list (x : Z) (xs : list Z) : bool := existsb (Z.eqb x) xs.

(** The test of line 198. *)
Definition select_mode (wd : Z) : mode :=
  if in_list wd [6; 0]%Z then NEWS else MARKET.

(** The module-level configuration read from the environment;
    [os.getenv] gives [None] for an unset variable. *)
Record config := {
  WP_URL : option pystr;
  WP_USERNAME : option pystr;
  WP_APP_PASSWORD : option pystr;
  GEMINI_API_KEY : option pystr
}.

(** What the WordPress endpoint does with one request. *)
Inductive post_outcome :=
| PostRaised                       (* requests.post raised: no response object *)
| PostBadStatus (body : pystr)     (* raise_for_status raised *)
| PostBadJson (body : pystr)       (* status fine, reading the link raised *)
| PostOk (link : option pystr).

(** The console diagnostics, one constructor per [print]. *)
Inductive diag :=
| PStarting
| PFetchingNasdaq
| PFetchingNews
| PErrorFetchingNews
| PGenerating (topic : pystr)
| PErrorGenerating
| PPosting
| PCredentialsMissing
| PPosted (link : option pystr)
| PErrorPosting
| PResponse (body : pystr)
| PModeNews
| PModeMarket
| PFailedFetch
| PNoData
| PFailedGenerate.

(** What a run does to the outside world, in order. *)
Inductive event :=
| Print (d : diag)
| YFinanceHistory                  (* nasdaq.history(period="5d") *)
| HttpGet (url : pystr)
| ModelGenerate (prompt : pystr)
| HttpPost (api_url authorization title content : pystr).

Definition is_post (e : event) : bool :=
  match e with HttpPost _ _ _ _ => true | _ => false end.

Definition is_model_call (e : event) : bool :=
  match e with ModelGenerate _ => true | _ => false end.

Definition is_generating (e : event) : bool :=
  match e with Print (PGenerating _) => true | _ => false end.

Definition is_data_call (e : event) : bool :=
  match e with YFinanceHistory | HttpGet _ => true | _ => false end.

Definition is_network (e : event) : bool :=
  match e with
  | YFinanceHistory | HttpGet _ | ModelGenerate _ | HttpPost _ _ _ _ => true
  | Print _ => false
  end.

(** An event that is no data call and announces no topic but [topic]. *)
Definition tail_event (topic : pystr) (e : event) : Prop :=
  is_data_call e = false
  /\ forall t, e = Print (PGenerating t) -> t = topic.


(** ** The response parser of [generate_blog_content] *)

Module Parser.

Definition default_title : pystr := py "Market Update".

Definition marker_Title : pystr := py "Title:".
Definition marker_Content : pystr := py "Content:".
(** The Korean markers, U+C81C U+BAA9 ':' and U+B0B4 U+C6A9 ':'. *)
Definition marker_Title_ko : pystr := [51228; 47785; 58]%N.
Definition marker_Content_ko : pystr := [45236; 50857; 58]%N.

(** The [if] test of the loop body. *)
Definition is_title_line (line : pystr) : bool :=
  startswith (strip line) marker_Title
  || startswith (strip line) marker_Title_ko.

(** The [elif] test of the loop body. *)
Definition is_content_line (line : pystr) : bool :=
  startswith (strip line) marker_Content
  || startswith (strip line) marker_Content_ko.

(** The [for i, line in enumerate(lines)] loop, with [title] and
    [content] threaded through.  At index [i] the remaining list is
    [lines[i+1:]].  [None] is an exception escaping the loop. *)
Fixpoint scan (lines : list pystr) (title content : pystr)
  : option (pystr * pystr) :=
  match lines with
  | [] => Some (title, content)
  | line :: rest =>
      if is_title_line line then
        match after_first_colon line with
        | Some t => scan rest (strip t) content
        | None => None
        end
      else if is_content_line line then
        Some (title, join_nl rest)
      else scan rest title content
  end.

(** A line that triggers neither branch of the loop body. *)
Definition unmarked (line : pystr) : Prop :=
  is_title_line line = false /\ is_content_line line = false.

(** Lines 139-150: from the response text to [(title, content)]. *)
Definition parse_response (text : pystr) : option (pystr * pystr) :=
  scan (split_nl text) default_title text.

End Parser.

(** ** The news scraper, [get_google_finance_news] *)

Module Scraper.

(** What BeautifulSoup hands back for one container: the text of its
    first [div.Yfwt5], if it has one, and its first [<a>], if it has one.
    An anchor may lack the [href] attribute. *)
Record anchor := { href : option pystr }.

Record article := {
  title_el : option pystr;   (* article.find('div', class_='Yfwt5'), then get_text() *)
  link_el : option anchor    (* article.find('a') *)
}.

(** The two [find_all] queries on the parsed page. *)
Record page := {
  divs_yY3Lee : list article;
  divs_F2KAFc : list article
}.

(** [requests.get], [raise_for_status] and the HTML parse either raise
    or give a page. *)
Inductive fetched :=
| FetchRaised
| Fetched (p : page).

Definition finance_url : pystr := py "https://www.google.com/finance".
Definition origin_url : pystr := py "https://www.google.com".

Definition no_headlines_msg : pystr :=
  py "Could not scrape specific headlines. Please generate a general market overview based on recent global financial events.".

Definition fetch_error_msg : pystr := py "Error fetching news.".

(** Lines 85-88. [link[1:]] is [skipn 1 link]. *)
Definition normalize_link (link : pystr) : pystr :=
  if startswith link (py "./") then finance_url ++ skipn 1 link
  else if startswith link (py "/") then origin_url ++ link
  else link.

(** [f"- {title} ({link})"] *)
Definition bullet (title link : pystr) : pystr :=
  py "- " ++ title ++ py " (" ++ link ++ py ")".

(** [link_el['href'] if link_el else "#"]; [None] is the [KeyError] of
    an anchor without [href]. *)
Definition raw_link (a : article) : option pystr :=
  match link_el a with
  | Some el => href el
  | None => Some (py "#")
  end.

(** The [for article in articles[:5]] loop over the already sliced list;
    [None] is an exception leaving the loop. *)
Fixpoint collect (articles : list article) (news_items : list pystr)
  : option (list pystr) :=
  match articles with
  | [] => Some news_items
  | a :: rest =>
      match title_el a with
      | Some title =>
          match raw_link a with
          | Some link =>
              collect rest (news_items ++ [bullet title (normalize_link link)])
          | None => None
          end
      | None => collect rest news_items
      end
  end.

(** Lines 75-77: the second class is asked for only when the first one
    matches nothing. *)
Definition select_articles (p : page) : list article :=
  match divs_yY3Lee p with
  | [] => divs_F2KAFc p
  | _ :: _ => divs_yY3Lee p
  end.

(** The body of the [try] block once the page is parsed. *)
Definition digest (p : page) : option pystr :=
  match collect (firstn 5 (select_articles p)) [] with
  | Some [] => Some no_headlines_msg
  | Some (i :: items) => Some (join_nl (i :: items))
  | None => None
  end.

(** The whole function: the string it returns and what it did.  Every
    exception is caught at line 99. *)
Definition get_google_finance_news (r : fetched) : pystr * list event :=
  let t := [Print PFetchingNews; HttpGet finance_url] in
  match r with
  | FetchRaised => (fetch_error_msg, t ++ [Print PErrorFetchingNews])
  | Fetched p =>
      match digest p with
      | Some s => (s, t)
      | None => (fetch_error_msg, t ++ [Print PErrorFetchingNews])
      end
  end.

End Scraper.

(** ** numpy [float64] arithmetic *)

Module F64.

Definition float := spec_float.
Definition prec : Z := 53.
Definition emax : Z := 1024.

Definition sub : float -> float -> float := SFsub prec emax.
Definition mul : float -> float -> float := SFmul prec emax.
Definition div : float -> float -> float := SFdiv prec emax.
Definition eqb : float -> float -> bool := SFeqb.

(** The integer [n] as a float, rounded to nearest even. *)
Definition of_Z (n : Z) : float := binary_normalize prec emax n 0 false.

Definition zero : float := S754_zero false.
Definition hundred : float := of_Z 100.

Definition is_finite (x : float) : bool :=
  match x with
  | S754_zero _ | S754_finite _ _ _ => true
  | S754_infinity _ | S754_nan => false
  end.

Definition is_zero (x : float) : bool :=
  match x with S754_zero _ => true | _ => false end.

(** C's [rint] in the default rounding mode: the nearest integer, ties
    to even, keeping the sign of a zero result. *)
Definition rint (x : float) : float :=
  match x with
  | S754_finite s m (Zneg k) =>
      let d := Z.pow 2 (Zpos k) in
      let q := Z.div (Zpos m) d in
      let r := Z.modulo (Zpos m) d in
      let q' := match Z.compare (2 * r) d with
                | Lt => q
                | Gt => (q + 1)%Z
                | Eq => if Z.even q then q else (q + 1)%Z
                end in
      binary_normalize prec emax (cond_Zopp s q') 0 s
  | _ => x
  end.

(** [round(x, 2)] on a numpy [float64]: numpy scales by [10**2], takes
    [rint] and scales back. *)
Definition round2 (x : float) : float := div (rint (mul x hundred)) hundred.

End F64.


(** ** The pipeline *)

Section Pipeline.

(** Library functions the script calls and this file leaves open. *)
Variable Timestamp : Type.                     (* the index label of a daily bar *)
Variable strftime_Ymd : Timestamp -> pystr.    (* .strftime('%Y-%m-%d') *)
Variable float_str : F64.float -> pystr.       (* a float64 inside an f-string *)
Variable b64encode : pystr -> pystr.           (* base64.b64encode(s.encode()).decode() *)

(** One row of [nasdaq.history(period="5d")], column by column: the
    prices are float64 and the volume is an int64. *)
Record bar := {
  name : Timestamp;
  Open : F64.float;
  High : F64.float;
  Low : F64.float;
  Close : F64.float;
  Volume : Z
}.

(** [hist.iloc[i]]: a negative index counts from the end, and an index
    out of range raises [IndexError] ([None] here). *)
Definition iloc (hist : list bar) (i : Z) : option bar :=
  let n := Z.of_nat (List.length hist) in
  let j := if (i <? 0)%Z then (n + i)%Z else i in
  if ((j <? 0) || (n <=? j))%Z then None else nth_error hist (Z.to_nat j).

(** The dictionary [data] of [get_nasdaq_data]. *)
Record snapshot := {
  date : pystr;
  close : F64.float;
  open : F64.float;
  high : F64.float;
  low : F64.float;
  volume : F64.float;
  change : F64.float;
  change_percent : F64.float
}.

(** Lines 30-50, on the rows the provider returned.  [Ok None] is
    [return None].  [hist.iloc[i]] is one row as a float64 series, so the
    volume read from it is the int64 converted to float64. *)
Definition nasdaq_snapshot (hist : list bar) : result (option snapshot) :=
  match hist with
  | [] => Ok None
  | _ :: _ =>
      match iloc hist (-1) with
      | None => Raise
      | Some last_day =>
          match (if (1 <? Z.of_nat (List.length hist))%Z
                 then iloc hist (-2) else Some last_day) with
          | None => Raise
          | Some prev_day =>
              let change := F64.sub (Close last_day) (Close prev_day) in
              let change_percent :=
                F64.mul (F64.div change (Close prev_day)) F64.hundred in
              Ok (Some {|
                date := strftime_Ymd (name last_day);
                close := F64.round2 (Close last_day);
                open := F64.round2 (Open last_day);
                high := F64.round2 (High last_day);
                low := F64.round2 (Low last_day);
                volume := F64.of_Z (Volume last_day);
                change := F64.round2 change;
                change_percent := F64.round2 change_percent |})
          end
      end
  end.

Definition get_nasdaq_data (hist : list bar)
  : result (option snapshot) * list event :=
  (nasdaq_snapshot hist, [Print PFetchingNasdaq; YFinanceHistory]).

(** The prompt of lines 114-132, line by line. *)
Definition prompt (today topic data_context : pystr) : pystr :=
  join_nl [
    [];
    py "    You are a professional financial blogger. Write a blog post for today (" ++ today ++ py ").";
    py "    ";
    py "    Topic: " ++ topic;
    py "    ";
    py "    Context Data:";
    py "    " ++ data_context;
    py "    ";
    py "    Requirements:";
    py "    1. Title: Catchy and relevant.";
    py "    2. Content: Informative, easy to read, formatted with HTML (use <h2>, <p>, <ul>, <li>).";
    py "    3. Tone: Professional yet engaging.";
    py "    4. Language: Korean (Hangul).";
    py "    5. Length: About 500-800 words.";
    py "    ";
    py "    Output format:";
    py "    Title: [Your Title Here]";
    py "    Content: [Your HTML Content Here]";
    py "    " ].

Definition missing_key_title : pystr := py "Error: Gemini API Key not found.".
Definition missing_key_content : pystr := py "Error".

(** [generate_blog_content].  [reply] is the model: [None] when
    [generate_content] or reading [response.text] raises. *)
Definition generate_blog_content (cfg : config)
    (reply : pystr -> option pystr) (today topic data_context : pystr)
  : (option pystr * option pystr) * list event :=
  let t := [Print (PGenerating topic)] in
  if negb (truthy_opt (GEMINI_API_KEY cfg)) then
    ((Some missing_key_title, Some missing_key_content), t)
  else
    let p := prompt today topic data_context in
    let t := t ++ [ModelGenerate p] in
    match reply p with
    | None => ((None, None), t ++ [Print PErrorGenerating])
    | Some text =>
        match Parser.parse_response text with
        | Some (title, content) => ((Some title, Some content), t)
        | None => ((None, None), t ++ [Print PErrorGenerating])
        end
    end.

(** A value that is a string or [None], inside an f-string. *)
Definition fmt_opt (x : option pystr) : pystr :=
  match x with Some s => s | None => py "None" end.

(** [post_to_wordpress].  When [requests.post] itself raises, the
    handler reads the unassigned local [response] and the error leaves
    the function. *)
Definition post_to_wordpress (cfg : config)
    (wp : pystr -> pystr -> pystr -> pystr -> post_outcome)
    (title content : pystr)
  : result bool * list event :=
  let t := [Print PPosting] in
  if negb (truthy_opt (WP_URL cfg)) || negb (truthy_opt (WP_USERNAME cfg))
     || negb (truthy_opt (WP_APP_PASSWORD cfg)) then
    (Ok false, t ++ [Print PCredentialsMissing])
  else
    let credentials :=
      fmt_opt (WP_USERNAME cfg) ++ py ":" ++ fmt_opt (WP_APP_PASSWORD cfg) in
    let token := b64encode credentials in
    let authorization := py "Basic " ++ token in
    let api_url := fmt_opt (WP_URL cfg) ++ py "/wp-json/wp/v2/posts" in
    let t := t ++ [HttpPost api_url authorization title content] in
    match wp api_url authorization title content with
    | PostOk link => (Ok true, t ++ [Print (PPosted link)])
    | PostBadStatus _ => (Ok false, t ++ [Print PErrorPosting])
    | PostBadJson body =>
        (Ok false, t ++ [Print PErrorPosting; Print (PResponse body)])
    | PostRaised => (Raise, t ++ [Print PErrorPosting])
    end.

(** What a run finds outside the process. *)
Record world := {
  now_day : dayname;                 (* datetime.datetime.now() *)
  today : pystr;                     (* date.today().strftime('%Y-%m-%d') *)
  history : list bar;
  finance_page : Scraper.fetched;
  model_reply : pystr -> option pystr;
  wp_reply : pystr -> pystr -> pystr -> pystr -> post_outcome
}.

Definition news_topic : pystr := py "Global Financial Market News & Updates".

(** [f"Nasdaq Market Review ({data['date']})"] *)
Definition market_topic (d : snapshot) : pystr :=
  py "Nasdaq Market Review (" ++ date d ++ py ")".

(** The f-string of lines 211-218. *)
Definition data_context (d : snapshot) : pystr :=
  join_nl [
    [];
    py "            Date: " ++ date d;
    py "            Close: " ++ float_str (close d);
    py "            Open: " ++ float_str (open d);
    py "            High: " ++ float_str (high d);
    py "            Low: " ++ float_str (low d);
    py "            Change: " ++ float_str (change d) ++ py " ("
      ++ float_str (change_percent d) ++ py "%)";
    py "            " ].

(** Lines 224-235 of [main]: the part both modes share. *)
Definition generate_and_post (cfg : config) (w : world)
    (topic data : pystr) : result unit * list event :=
  if negb (truthy data) then (Ok tt, [Print PNoData])
  else
    let '((title, content), t1) :=
      generate_blog_content cfg (model_reply w) (today w) topic data in
    match title, content with
    | Some ti, Some co =>
        if truthy ti && truthy co then
          let '(r, t2) := post_to_wordpress cfg (wp_reply w) ti co in
          (match r with Ok _ => Ok tt | Raise => Raise end, t1 ++ t2)
        else (Ok tt, t1 ++ [Print PFailedGenerate])
    | _, _ => (Ok tt, t1 ++ [Print PFailedGenerate])
    end.

(** [main]: the mode it chose, how it ended and what it did. *)
Definition main (cfg : config) (w : world)
  : mode * result unit * list event :=
  let t0 := [Print PStarting] in
  match select_mode (weekday (now_day w)) with
  | NEWS =>
      let '(data, t1) := Scraper.get_google_finance_news (finance_page w) in
      let '(r, t2) := generate_and_post cfg w news_topic data in
      (NEWS, r, t0 ++ Print PModeNews :: t1 ++ t2)
  | MARKET =>
      let '(data, t1) := get_nasdaq_data (history w) in
      match data with
      | Raise => (MARKET, Raise, t0 ++ Print PModeMarket :: t1)
      | Ok None =>
          (MARKET, Ok tt, t0 ++ Print PModeMarket :: t1 ++ [Print PFailedFetch])
      | Ok (Some d) =>
          let '(r, t2) := generate_and_post cfg w (market_topic d) (data_context d) in
          (MARKET, r, t0 ++ Print PModeMarket :: t1 ++ t2)
      end
  end.

Definition run_mode (r : mode * result unit * list event) : mode :=
  fst (fst r).
Definition run_result (r : mode * result unit * list event) : result unit :=
  snd (fst r).
Definition run_trace (r : mode * result unit * list event) : list event :=
  snd r.

End Pipeline.

(** * Properties *)

Unset Implicit Arguments.

(** ** Strings *)

Lemma In_lstrip (x : N) (s : pystr) : In x (lstrip s) -> In x s.
Proof.
  induction s as [|c s IH]; simpl; auto.
  destruct (isspace c); simpl; auto.
Qed.

Lemma In_strip (x : N) (s : pystr) : In x (strip s) -> In x s.
Proof.
  unfold strip, rstrip. intro H.
  apply in_rev, In_lstrip in H. apply in_rev in H.
  now apply In_lstrip.
Qed.

Lemma startswith_In (x : N) (p s : pystr) :
  startswith s p = true -> In x p -> In x s.
Proof.
  revert s. induction p as [|q p IH]; intros s Hs Hin; [destruct Hin|].
  destruct s as [|c s]; simpl in Hs; [discriminate|].
  apply andb_true_iff in Hs as [Hc Hs]. apply N.eqb_eq in Hc. subst c.
  destruct Hin as [->|Hin]; [now left|right; eauto].
Qed.

Lemma startswith_app (p r : pystr) : startswith (p ++ r) p = true.
Proof.
  induction p as [|q p IH]; simpl; [reflexivity|].
  now rewrite N.eqb_refl.
Qed.

Lemma startswith_split (s p : pystr) :
  startswith s p = true -> exists r, s = p ++ r.
Proof.
  revert s. induction p as [|q p IH]; intros s H; [now exists s|].
  destruct s as [|c s]; simpl in H; [discriminate|].
  apply andb_true_iff in H as [Hc H]. apply N.eqb_eq in Hc. subst c.
  destruct (IH _ H) as [r ->]. now exists r.
Qed.

Lemma after_first_colon_In (l : pystr) :
  In colon l -> exists t, after_first_colon l = Some t.
Proof.
  induction l as [|c l IH]; simpl; [intros []|].
  intros H. destruct (N.eqb_spec c colon) as [_|Hne]; [eauto|].
  destruct H as [H|H]; [contradiction|auto].
Qed.

(** ** The response parser *)

(** A Title-marked line has a colon, so indexing the split at 1 is safe. *)
Lemma title_line_has_colon (l : pystr) :
  Parser.is_title_line l = true -> exists t, after_first_colon l = Some t.
Proof.
  unfold Parser.is_title_line. intro H.
  apply after_first_colon_In, In_strip.
  apply orb_true_iff in H as [H|H];
    (eapply startswith_In; [exact H|]); vm_compute; tauto.
Qed.

(** The two tests of the loop body never both hold. *)
Lemma title_line_not_content (l : pystr) :
  Parser.is_title_line l = true -> Parser.is_content_line l = false.
Proof.
  unfold Parser.is_title_line, Parser.is_content_line.
  destruct (strip l) as [|c s]; [discriminate|].
  intro H. apply orb_true_iff in H as [H|H];
    apply startswith_split in H as [r Hr]; injection Hr as -> _;
    reflexivity.
Qed.

(** The loop never raises: the parser is total. *)
Lemma scan_total (ls : list pystr) :
  forall title content, exists r, Parser.scan ls title content = Some r.
Proof.
  induction ls as [|l ls IH]; intros title content; simpl; [eauto|].
  destruct (Parser.is_title_line l) eqn:Ht.
  - destruct (title_line_has_colon l Ht) as [t ->]. apply IH.
  - destruct (Parser.is_content_line l); eauto.
Qed.

Lemma parse_response_total (text : pystr) :
  exists title content, Parser.parse_response text = Some (title, content).
Proof.
  destruct (scan_total (split_nl text) Parser.default_title text) as [[t c] H].
  now exists t, c.
Qed.

Lemma scan_unmarked (ls : list pystr) :
  Forall Parser.unmarked ls ->
  forall title content, Parser.scan ls title content = Some (title, content).
Proof.
  induction 1 as [|l ls [Ht Hc] _ IH]; intros; simpl; [reflexivity|].
  now rewrite Ht, Hc.
Qed.

(** The scan up to and including the first Content-marked line [c]. *)
Lemma scan_to_content (c : pystr) :
  Parser.is_content_line c = true ->
  forall pre t0,
    Forall (fun l => Parser.is_content_line l = false) pre ->
    exists title,
      (forall post c0,
          Parser.scan (pre ++ c :: post) t0 c0 = Some (title, join_nl post))
      /\ (Forall (fun l => Parser.is_title_line l = false) pre -> title = t0)
      /\ (forall p1 t p2,
            pre = p1 ++ t :: p2 ->
            Parser.is_title_line t = true ->
            Forall (fun l => Parser.is_title_line l = false) p2 ->
            option_map strip (after_first_colon t) = Some title).
Proof.
  intros Hc pre.
  assert (Hct : Parser.is_title_line c = false).
  { destruct (Parser.is_title_line c) eqn:E; [|reflexivity].
    apply title_line_not_content in E. congruence. }
  induction pre as [|a pre IH]; intros t0 Hpre.
  - exists t0. repeat split.
    + intros post c0. simpl. now rewrite Hct, Hc.
    + intros [|? ?] t p2 E; discriminate E.
  - inversion Hpre as [|? ? Ha Hpre']; subst.
    destruct (Parser.is_title_line a) eqn:Hta.
    + destruct (title_line_has_colon a Hta) as [t' Ht'].
      destruct (IH (strip t') Hpre') as (title & Hscan & Hnone & Hlast).
      exists title. repeat split.
      * intros post c0. simpl. rewrite Hta, Ht'. apply Hscan.
      * intro F. inversion F; congruence.
      * intros [|b p1] t p2 E Ht Hp2; injection E as -> ->.
        -- rewrite Ht'. simpl. f_equal. symmetry. now apply Hnone.
        -- eapply Hlast; eauto.
    + destruct (IH t0 Hpre') as (title & Hscan & Hnone & Hlast).
      exists title. repeat split.
      * intros post c0. simpl. rewrite Hta, Ha. apply Hscan.
      * intro F. inversion F; auto.
      * intros [|b p1] t p2 E Ht Hp2; injection E as -> ->.
        -- congruence.
        -- eapply Hlast; eauto.
Qed.

(** C3.  The claim says that parsing the three-line response
    "Title: Foo", "Content: Bar", "Baz" yields the title "Foo" and the
    body "Bar\nBaz".  The parser gives the title "Foo" and the body
    "Baz": the body is the lines after the Content line, and the text
    that follows the colon on the Content line itself is dropped. *)
Theorem C3_content_line_text_dropped :
  let response := py "Title: Foo" ++ nl :: py "Content: Bar" ++ nl :: py "Baz" in
  Parser.parse_response response = Some (py "Foo", py "Baz")
  /\ Parser.parse_response response
     <> Some (py "Foo", py "Bar" ++ nl :: py "Baz").
Proof.
  split; [reflexivity|]. vm_compute. discriminate.
Qed.

(** C4.  For every model response none of whose lines, once trimmed,
    starts with a Title or Content marker (English or Korean), parsing
    succeeds and returns the placeholder title "Market Update" with the
    whole raw response as the body. *)
Theorem C4_unmarked_response_is_body (text : pystr) :
  Forall Parser.unmarked (split_nl text) ->
  Parser.parse_response text = Some (py "Market Update", text).
Proof.
  intro H. unfold Parser.parse_response.
  now rewrite (scan_unmarked _ H).
Qed.

Lemma C4_unmarked_response_witness :
  let text := py "Stocks rose." ++ nl :: py "Note: no markers here." in
  Forall Parser.unmarked (split_nl text)
  /\ Parser.parse_response text = Some (py "Market Update", text).
Proof.
  assert (H : Forall Parser.unmarked
                (split_nl (py "Stocks rose." ++ nl :: py "Note: no markers here."))).
  { vm_compute. repeat constructor. }
  split; [exact H|]. exact (C4_unmarked_response_is_body _ H).
Defined.

(** C10.  When the response has a first Content-marked line, the scan
    ends there: the body is exactly the lines after it, the title is the
    text after the colon of the last Title-marked line before it (the
    placeholder when there is none), and the lines after it, whatever
    markers they carry, change nothing else. *)
Theorem C10_scan_stops_at_first_content
    (text : pystr) (pre : list pystr) (c : pystr) (post : list pystr) :
  split_nl text = pre ++ c :: post ->
  Forall (fun l => Parser.is_content_line l = false) pre ->
  Parser.is_content_line c = true ->
  exists title,
    Parser.parse_response text = Some (title, join_nl post)
    /\ (Forall (fun l => Parser.is_title_line l = false) pre ->
        title = py "Market Update")
    /\ (forall p1 t p2,
          pre = p1 ++ t :: p2 ->
          Parser.is_title_line t = true ->
          Forall (fun l => Parser.is_title_line l = false) p2 ->
          option_map strip (after_first_colon t) = Some title)
    /\ (forall text' post',
          split_nl text' = pre ++ c :: post' ->
          Parser.parse_response text' = Some (title, join_nl post')).
Proof.
  intros Hsplit Hpre Hc.
  destruct (scan_to_content c Hc pre Parser.default_title Hpre)
    as (title & Hscan & Hnone & Hlast).
  exists title. unfold Parser.parse_response. repeat split.
  - rewrite Hsplit. apply Hscan.
  - exact Hnone.
  - exact Hlast.
  - intros text' post' E. rewrite E. apply Hscan.
Qed.

Lemma C10_scan_stops_witness :
  let pre := [py "Title: A"; py "  Title: B "] in
  let c := py "Content: x" in
  let post := [py "Title: C"; py "Content: y"; py "z"] in
  let text := join_nl (pre ++ c :: post) in
  split_nl text = pre ++ c :: post
  /\ Forall (fun l => Parser.is_content_line l = false) pre
  /\ Parser.is_content_line c = true
  /\ Parser.parse_response text = Some (py "B", join_nl post).
Proof.
  assert (H1 : split_nl (join_nl ([py "Title: A"; py "  Title: B "]
                 ++ py "Content: x" :: [py "Title: C"; py "Content: y"; py "z"]))
               = [py "Title: A"; py "  Title: B "]
                 ++ py "Content: x" :: [py "Title: C"; py "Content: y"; py "z"])
    by reflexivity.
  assert (H2 : Forall (fun l => Parser.is_content_line l = false)
                 [py "Title: A"; py "  Title: B "])
    by (repeat constructor).
  assert (H3 : Parser.is_content_line (py "Content: x") = true) by reflexivity.
  intros pre c post text.
  split; [exact H1|]. split; [exact H2|]. split; [exact H3|].
  destruct (C10_scan_stops_at_first_content _ _ _ _ H1 H2 H3)
    as (title & Hp & _ & Hlast & _).
  specialize (Hlast [py "Title: A"] (py "  Title: B ") [] eq_refl eq_refl
                (Forall_nil _)).
  vm_compute in Hlast. injection Hlast as <-. exact Hp.
Defined.

(** ** The news scraper *)

Lemma collect_no_titles (arts : list Scraper.article) :
  Forall (fun a => Scraper.title_el a = None) arts ->
  forall acc, Scraper.collect arts acc = Some acc.
Proof.
  induction 1 as [|a arts Ha _ IH]; intro acc; simpl; [reflexivity|].
  now rewrite Ha.
Qed.

Lemma collect_truthy (arts : list Scraper.article) :
  forall acc items,
    Scraper.collect arts acc = Some items ->
    Forall (fun s => truthy s = true) acc ->
    Forall (fun s => truthy s = true) items.
Proof.
  induction arts as [|a arts IH]; simpl; intros acc items H Hacc.
  - now injection H as <-.
  - destruct (Scraper.title_el a) as [title|]; [|eauto].
    destruct (Scraper.raw_link a) as [link|]; [|discriminate].
    apply (IH _ _ H). apply Forall_app. split; [assumption|].
    constructor; [reflexivity|constructor].
Qed.

Lemma join_nl_truthy (i : pystr) (items : list pystr) :
  truthy i = true -> truthy (join_nl (i :: items)) = true.
Proof.
  destruct i as [|c i]; [discriminate|]. intros _.
  destruct items; reflexivity.
Qed.

(** Whatever the page, the scraper returns a non-empty string. *)
Lemma scraper_result_truthy (r : Scraper.fetched) :
  truthy (fst (Scraper.get_google_finance_news r)) = true.
Proof.
  destruct r as [|p]; simpl; [reflexivity|].
  unfold Scraper.digest.
  destruct (Scraper.collect _ _) as [[|i items]|] eqn:E; simpl; try reflexivity.
  apply collect_truthy in E; [|constructor].
  inversion E; subst. now apply join_nl_truthy.
Qed.

(** C6 (amended).  When the page was fetched and no item is extracted
    because both selector classes match nothing, or because none of the
    first five matched containers has a headline element, the scraper
    returns the fixed instruction asking for a general market overview:
    a non-empty string, returned without any exception being caught. *)
Theorem C6_no_items_gives_overview_instruction (p : Scraper.page) :
  (Scraper.divs_yY3Lee p = [] /\ Scraper.divs_F2KAFc p = [])
  \/ Forall (fun a => Scraper.title_el a = None)
       (firstn 5 (Scraper.select_articles p)) ->
  Scraper.get_google_finance_news (Scraper.Fetched p)
  = (py "Could not scrape specific headlines. Please generate a general market overview based on recent global financial events.",
     [Print PFetchingNews; HttpGet (py "https://www.google.com/finance")])
  /\ truthy (fst (Scraper.get_google_finance_news (Scraper.Fetched p))) = true.
Proof.
  intro H. split; [|apply scraper_result_truthy].
  assert (F : Forall (fun a => Scraper.title_el a = None)
                (firstn 5 (Scraper.select_articles p))).
  { destruct H as [[H1 H2]|H]; [|exact H].
    unfold Scraper.select_articles. rewrite H1, H2. constructor. }
  unfold Scraper.get_google_finance_news, Scraper.digest.
  now rewrite (collect_no_titles _ F).
Qed.

Lemma C6_no_items_witness :
  let bare := {| Scraper.title_el := None;
                 Scraper.link_el := Some {| Scraper.href := None |} |} in
  let p := {| Scraper.divs_yY3Lee := [bare; bare];
              Scraper.divs_F2KAFc := [] |} in
  ((Scraper.divs_yY3Lee p = [] /\ Scraper.divs_F2KAFc p = [])
   \/ Forall (fun a => Scraper.title_el a = None)
        (firstn 5 (Scraper.select_articles p)))
  /\ fst (Scraper.get_google_finance_news (Scraper.Fetched p))
     = Scraper.no_headlines_msg.
Proof.
  intros bare p.
  assert (H : (Scraper.divs_yY3Lee p = [] /\ Scraper.divs_F2KAFc p = [])
              \/ Forall (fun a => Scraper.title_el a = None)
                   (firstn 5 (Scraper.select_articles p))).
  { right. repeat constructor. }
  split; [exact H|].
  destruct (C6_no_items_gives_overview_instruction p H) as [E _].
  exact (f_equal fst E).
Defined.

(** C6 as stated fails: on a fetched page whose only matched container
    has a headline element and an anchor without href, no container
    yields an item, yet the lookup of the href raises inside the loop and
    the scraper returns "Error fetching news.", not the instruction. *)
Lemma C6_headline_without_href_counterexample :
  let a := {| Scraper.title_el := Some (py "Fed holds");
              Scraper.link_el := Some {| Scraper.href := None |} |} in
  let p := {| Scraper.divs_yY3Lee := [a]; Scraper.divs_F2KAFc := [] |} in
  (forall b, In b (Scraper.select_articles p) ->
     ~ exists t l, Scraper.title_el b = Some t /\ Scraper.raw_link b = Some l)
  /\ (forall news_items,
        Scraper.collect (firstn 5 (Scraper.select_articles p)) news_items = None)
  /\ Scraper.get_google_finance_news (Scraper.Fetched p)
     = (py "Error fetching news.",
        [Print PFetchingNews; HttpGet (py "https://www.google.com/finance");
         Print PErrorFetchingNews])
  /\ fst (Scraper.get_google_finance_news (Scraper.Fetched p))
     <> py "Could not scrape specific headlines. Please generate a general market overview based on recent global financial events.".
Proof.
  intros a p. split; [|split; [|split]].
  - intros b [<-|[]] (t & l & _ & Hl). discriminate Hl.
  - reflexivity.
  - reflexivity.
  - vm_compute. discriminate.
Qed.

Lemma collect_bullets (arts : list Scraper.article) :
  Forall (fun a => Scraper.title_el a <> None -> Scraper.raw_link a <> None) arts ->
  forall acc,
    Scraper.collect arts acc
    = Some (acc ++ flat_map
                     (fun a => match Scraper.title_el a, Scraper.raw_link a with
                               | Some t, Some l =>
                                   [Scraper.bullet t (Scraper.normalize_link l)]
                               | _, _ => []
                               end) arts).
Proof.
  induction 1 as [|a arts Ha _ IH]; intro acc; simpl.
  - now rewrite app_nil_r.
  - destruct (Scraper.title_el a) as [t|]; [|apply IH].
    destruct (Scraper.raw_link a) as [l|]; [|now contradiction Ha].
    rewrite IH. now rewrite <- app_assoc.
Qed.



(** ** float64 facts used by the snapshot *)

Lemma sub_self_finite (s : bool) (m : positive) (e : Z) :
  F64.sub (S754_finite s m e) (S754_finite s m e) = F64.zero.
Proof.
  unfold F64.sub, SFsub. cbv zeta. rewrite Z.sub_diag. reflexivity.
Qed.

Lemma sub_self (x : F64.float) :
  F64.is_finite x = true -> F64.sub x x = F64.zero.
Proof.
  destruct x as [s|s| |s m e]; try discriminate; intros _.
  - destruct s; reflexivity.
  - apply sub_self_finite.
Qed.

Lemma round2_zero (s : bool) : F64.round2 (S754_zero s) = S754_zero s.
Proof. destruct s; vm_compute; reflexivity. Qed.

Lemma percent_of_zero_change (s : bool) (m : positive) (e : Z) :
  F64.mul (F64.div F64.zero (S754_finite s m e)) F64.hundred = S754_zero s.
Proof. destruct s; reflexivity. Qed.

Lemma round2_nan : F64.round2 S754_nan = S754_nan.
Proof. reflexivity. Qed.

(** ** The market snapshot *)

Section SnapshotFacts.

Variable Timestamp : Type.
Variable strftime_Ymd : Timestamp -> pystr.

Local Abbreviation bar := (bar Timestamp).

Lemma iloc_last (rest : list bar) (last : bar) :
  iloc (rest ++ [last]) (-1) = Some last.
Proof.
  unfold iloc. rewrite length_app. simpl List.length.
  replace (-1 <? 0)%Z with true by reflexivity.
  destruct (_ || _)%bool eqn:E.
  - apply orb_true_iff in E as [E|E]; [apply Z.ltb_lt in E|apply Z.leb_le in E]; lia.
  - replace (Z.to_nat _) with (List.length rest + 0)%nat by lia.
    now rewrite nth_error_app2, Nat.add_comm, Nat.add_sub by lia.
Qed.

Lemma iloc_before_last (rest : list bar) (prev last : bar) :
  iloc (rest ++ [prev; last]) (-2) = Some prev.
Proof.
  unfold iloc. rewrite length_app. simpl List.length.
  replace (-2 <? 0)%Z with true by reflexivity.
  destruct (_ || _)%bool eqn:E.
  - apply orb_true_iff in E as [E|E]; [apply Z.ltb_lt in E|apply Z.leb_le in E]; lia.
  - replace (Z.to_nat _) with (List.length rest + 0)%nat by lia.
    now rewrite nth_error_app2, Nat.add_comm, Nat.add_sub by lia.
Qed.

(** The snapshot of a non-empty series, with [prev] the bar before the
    last one, or the last one itself when it is alone. *)
Lemma nasdaq_snapshot_nonempty (rest : list bar) (last : bar) :
  let prev := List.last rest last in
  let diff := F64.sub (Close last) (Close prev) in
  nasdaq_snapshot strftime_Ymd (rest ++ [last])
  = Ok (Some {|
      date := strftime_Ymd (name last);
      close := F64.round2 (Close last);
      open := F64.round2 (Open last);
      high := F64.round2 (High last);
      low := F64.round2 (Low last);
      volume := F64.of_Z (Volume last);
      change := F64.round2 diff;
      change_percent :=
        F64.round2 (F64.mul (F64.div diff (Close prev)) F64.hundred) |}).
Proof.
  intros prev diff. unfold nasdaq_snapshot.
  destruct (rest ++ [last]) as [|b0 l0] eqn:E;
    [now destruct rest|]. rewrite <- E. clear E b0 l0.
  rewrite iloc_last.
  destruct rest as [|b rest'] using rev_ind.
  - reflexivity.
  - clear IHrest'. subst prev diff.
    rewrite last_last. rewrite <- app_assoc. simpl app.
    rewrite iloc_before_last.
    replace (1 <? _)%Z with true; [reflexivity|].
    symmetry. apply Z.ltb_lt. rewrite length_app. simpl. lia.
Qed.

(** C2 (amended).  For every non-empty series the snapshot holds
    close, open, high and low rounded to 2 decimals, change = the
    rounded difference of the last close and the previous close, and
    change_percent = that (unrounded) difference divided by the previous
    close, times 100, rounded; the previous bar is the second-most-recent
    one, or the last bar itself when it is the only one.  In the one-bar
    case change and change_percent both equal 0 provided the close is a
    finite number other than zero. *)
Theorem C2_snapshot_change_and_rounding (rest : list bar) (last : bar) :
  let prev := List.last rest last in
  exists d,
    nasdaq_snapshot strftime_Ymd (rest ++ [last]) = Ok (Some d)
    /\ date d = strftime_Ymd (name last)
    /\ close d = F64.round2 (Close last)
    /\ open d = F64.round2 (Open last)
    /\ high d = F64.round2 (High last)
    /\ low d = F64.round2 (Low last)
    /\ change d = F64.round2 (F64.sub (Close last) (Close prev))
    /\ change_percent d
       = F64.round2
           (F64.mul (F64.div (F64.sub (Close last) (Close prev)) (Close prev))
              F64.hundred)
    /\ (rest = [] ->
        F64.is_finite (Close last) = true ->
        F64.is_zero (Close last) = false ->
        F64.eqb (change d) F64.zero = true
        /\ F64.eqb (change_percent d) F64.zero = true).
Proof.
  intro prev. eexists. split; [apply nasdaq_snapshot_nonempty|].
  repeat (split; [reflexivity|]).
  intros -> Hfin Hnz. simpl.
  destruct (Close last) as [s|s| |s m e]; try discriminate.
  rewrite sub_self_finite, percent_of_zero_change.
  change F64.zero with (S754_zero false). rewrite !round2_zero.
  destruct s; split; reflexivity.
Qed.

End SnapshotFacts.

Lemma C2_snapshot_witness :
  let last := {| name := py "2024-01-02"; Open := F64.of_Z 14800;
                 High := F64.of_Z 14900; Low := F64.of_Z 14700;
                 Close := F64.of_Z 14850; Volume := 5000 |} in
  exists d,
    nasdaq_snapshot (fun t => t) ([] ++ [last]) = Ok (Some d)
    /\ F64.eqb (change d) F64.zero = true
    /\ F64.eqb (change_percent d) F64.zero = true.
Proof.
  intro last.
  destruct (C2_snapshot_change_and_rounding pystr (fun t => t) [] last)
    as (d & Hd & _ & _ & _ & _ & _ & _ & _ & H0).
  exists d. split; [exact Hd|].
  exact (H0 eq_refl eq_refl eq_refl).
Defined.

(** C2 as stated fails: a one-bar series whose close is NaN (a row the
    provider returns for a day without data) gives NaN, not 0, for both
    change and change_percent. *)
Lemma C2_one_bar_nan_close :
  let b := {| name := py "2024-01-02"; Open := S754_nan; High := S754_nan;
              Low := S754_nan; Close := S754_nan; Volume := 0 |} in
  (exists d,
      nasdaq_snapshot (fun t => t) [b] = Ok (Some d)
      /\ change d = S754_nan /\ change_percent d = S754_nan
      /\ F64.eqb (change d) F64.zero = false
      /\ F64.eqb (change_percent d) F64.zero = false)
  /\ ~ (forall (hist : list (bar pystr)) d,
          List.length hist = 1%nat ->
          nasdaq_snapshot (fun t => t) hist = Ok (Some d) ->
          F64.eqb (change d) F64.zero = true
          /\ F64.eqb (change_percent d) F64.zero = true).
Proof.
  intro b. split.
  - eexists. split; [reflexivity|]. repeat split; reflexivity.
  - intro H. destruct (H [b] _ eq_refl eq_refl) as [H1 _].
    vm_compute in H1. discriminate H1.
Qed.

(** A one-bar series with a zero close: the change is 0 and the
    percentage is 0/0. *)
Example one_bar_zero_close :
  let b := {| name := py "2024-01-02"; Open := F64.zero; High := F64.zero;
              Low := F64.zero; Close := F64.zero; Volume := 0 |} in
  exists d,
    nasdaq_snapshot (fun t => t) [b] = Ok (Some d)
    /\ change d = F64.zero /\ change_percent d = S754_nan.
Proof. intro b. eexists. repeat split; reflexivity. Qed.

(** Two bars, 14850.00 after 14700.00: change 150.0, change_percent 1.02. *)
Example two_bar_snapshot :
  let mk c := {| name := py "d"; Open := c; High := c; Low := c;
                 Close := c; Volume := 0 |} in
  exists d,
    nasdaq_snapshot (fun t => t) [mk (F64.of_Z 14700); mk (F64.of_Z 14850)]
    = Ok (Some d)
    /\ change d = F64.of_Z 150
    /\ change_percent d = F64.div (F64.of_Z 102) F64.hundred.
Proof. intro mk. eexists. repeat split; vm_compute; reflexivity. Qed.

(** ** The run as a whole *)

Ltac break_inner_match :=
  match goal with
  | |- context [match ?x with _ => _ end] =>
      lazymatch x with
      | context [match _ with _ => _ end] => fail
      | _ => destruct x eqn:?
      end
  end.

Lemma list_snoc_cases (A : Type) (l : list A) :
  l = [] \/ exists rest last, l = rest ++ [last].
Proof.
  destruct l as [|a l] using rev_ind; [now left|right; eauto].
Qed.

Section RunFacts.

Variable Timestamp : Type.
Variable strftime_Ymd : Timestamp -> pystr.
Variable float_str : F64.float -> pystr.
Variable b64encode : pystr -> pystr.

Local Abbreviation world := (world Timestamp).
Local Abbreviation run := (main strftime_Ymd float_str b64encode).
Local Abbreviation shared_tail := (generate_and_post b64encode).

Lemma generate_and_post_trace (cfg : config) (w : world) (topic data : pystr) :
  Forall (tail_event topic) (snd (shared_tail cfg w topic data)).
Proof.
  unfold generate_and_post, generate_blog_content, post_to_wordpress.
  repeat break_inner_match; simpl;
    repeat match goal with
           | H : (_, _) = (_, _) |- _ => injection H as <- <-
           end;
    simpl; repeat constructor; try discriminate; congruence.
Qed.

Lemma generate_and_post_announces (cfg : config) (w : world) (topic data : pystr) :
  truthy data = true ->
  In (Print (PGenerating topic)) (snd (shared_tail cfg w topic data)).
Proof.
  intro Hd.
  unfold generate_and_post, generate_blog_content, post_to_wordpress.
  rewrite Hd. simpl negb. cbv iota.
  repeat break_inner_match; simpl;
    repeat match goal with
           | H : (_, _) = (_, _) |- _ => injection H as <- <-
           end;
    simpl; auto.
Qed.

Lemma data_context_truthy (d : snapshot) :
  truthy (data_context float_str d) = true.
Proof. reflexivity. Qed.

(** C1.  The mode depends on the weekday alone.  On Sunday and
    Monday the run is in NEWS mode: it scrapes the news page, makes no
    market-data call, and calls the generator with the fixed topic
    "Global Financial Market News & Updates".  On every other day it is
    in MARKET mode: it fetches the market history, scrapes nothing, and
    any topic handed to the generator is "Nasdaq Market Review (DATE)"
    with DATE the date of the last bar; the generator is reached
    whenever the history is not empty. *)
Theorem C1_mode_by_weekday (cfg : config) (w : world) :
  let m := run_mode (run cfg w) in
  let t := run_trace (run cfg w) in
  match now_day w with
  | Sunday | Monday =>
      (isoweekday (now_day w) = 7 \/ isoweekday (now_day w) = 1)%Z
  | _ => (2 <= isoweekday (now_day w) <= 6)%Z
  end
  /\
  match now_day w with
  | Sunday | Monday =>
      m = NEWS
      /\ In (HttpGet (py "https://www.google.com/finance")) t
      /\ ~ In YFinanceHistory t
      /\ In (Print (PGenerating (py "Global Financial Market News & Updates"))) t
      /\ (forall topic, In (Print (PGenerating topic)) t ->
          topic = py "Global Financial Market News & Updates")
  | _ =>
      m = MARKET
      /\ In YFinanceHistory t
      /\ (forall url, ~ In (HttpGet url) t)
      /\ (forall topic, In (Print (PGenerating topic)) t ->
          exists rest last_day,
            history w = rest ++ [last_day]
            /\ topic = py "Nasdaq Market Review ("
                         ++ strftime_Ymd (name last_day) ++ py ")")
      /\ (history w <> [] -> exists topic, In (Print (PGenerating topic)) t)
  end.
Proof.
  assert (News :
    select_mode (weekday (now_day w)) = NEWS ->
    run_mode (run cfg w) = NEWS
    /\ In (HttpGet (py "https://www.google.com/finance")) (run_trace (run cfg w))
    /\ ~ In YFinanceHistory (run_trace (run cfg w))
    /\ In (Print (PGenerating news_topic)) (run_trace (run cfg w))
    /\ (forall topic, In (Print (PGenerating topic)) (run_trace (run cfg w)) ->
        topic = news_topic)).
  { intro Hm. unfold main. rewrite Hm.
    pose proof (scraper_result_truthy (finance_page w)) as Htr.
    destruct (Scraper.get_google_finance_news (finance_page w)) as [data t1] eqn:Es.
    pose proof (generate_and_post_trace cfg w news_topic data) as Ht.
    pose proof (generate_and_post_announces cfg w news_topic data Htr) as Ha.
    destruct (generate_and_post b64encode cfg w news_topic data) as [r t2].
    simpl in Ht, Ha, Htr. unfold run_mode, run_trace. simpl.
    assert (Et1 : t1 = [Print PFetchingNews; HttpGet Scraper.finance_url]
                  \/ t1 = [Print PFetchingNews; HttpGet Scraper.finance_url;
                           Print PErrorFetchingNews]).
    { unfold Scraper.get_google_finance_news in Es.
      destruct (finance_page w) as [|p]; [injection Es as _ <-; now right|].
      destruct (Scraper.digest p); injection Es as _ <-; auto. }
    rewrite Forall_forall in Ht.
    repeat split.
    - right. right. apply in_or_app. left.
      destruct Et1 as [-> | ->]; simpl; auto.
    - intros [H|[H|H]]; try discriminate.
      apply in_app_or in H as [H|H].
      + destruct Et1 as [-> | ->]; simpl in H; intuition discriminate.
      + apply Ht in H as [H _]. discriminate.
    - right. right. apply in_or_app. now right.
    - intros topic [H|[H|H]]; try discriminate.
      apply in_app_or in H as [H|H].
      + destruct Et1 as [-> | ->]; simpl in H; intuition discriminate.
      + apply Ht in H as [_ H]. now apply H. }
  assert (Market :
    select_mode (weekday (now_day w)) = MARKET ->
    run_mode (run cfg w) = MARKET
    /\ In YFinanceHistory (run_trace (run cfg w))
    /\ (forall url, ~ In (HttpGet url) (run_trace (run cfg w)))
    /\ (forall topic, In (Print (PGenerating topic)) (run_trace (run cfg w)) ->
        exists rest last_day,
          history w = rest ++ [last_day]
          /\ topic = py "Nasdaq Market Review ("
                       ++ strftime_Ymd (name last_day) ++ py ")")
    /\ (history w <> [] ->
        exists topic, In (Print (PGenerating topic)) (run_trace (run cfg w)))).
  { intro Hm. unfold main. rewrite Hm. unfold get_nasdaq_data.
    destruct (list_snoc_cases _ (history w)) as [E|(rest & last & E)]; rewrite E.
    - simpl. unfold run_mode, run_trace. simpl. repeat split.
      + auto.
      + intros url H. simpl in H. intuition discriminate.
      + intros topic H. simpl in H. intuition discriminate.
      + intro H. now contradiction H.
    - rewrite nasdaq_snapshot_nonempty.
      set (d := {| date := strftime_Ymd (name last) |}).
      pose proof (generate_and_post_trace cfg w
                    (market_topic d) (data_context float_str d)) as Ht.
      pose proof (generate_and_post_announces cfg w
                    (market_topic d) (data_context float_str d)
                    (data_context_truthy d)) as Ha.
      destruct (generate_and_post b64encode cfg w (market_topic d)
                  (data_context float_str d)) as [r t2].
      simpl in Ht, Ha. unfold run_mode, run_trace. simpl.
      rewrite Forall_forall in Ht.
      repeat split.
      + auto.
      + intros url [H|[H|[H|[H|H]]]]; try discriminate.
        apply Ht in H as [H _]. discriminate.
      + intros topic [H|[H|[H|[H|H]]]]; try discriminate.
        apply Ht in H as [_ H]. exists rest, last. split; [reflexivity|].
        now apply H.
      + intros _. exists (market_topic d). auto. }
  intros m t. subst m t.
  destruct (now_day w) eqn:Ed;
    (split; [vm_compute; intuition discriminate|]);
    first [apply News; reflexivity | apply Market; reflexivity].
Qed.

(** C5.  In MARKET mode with an empty price series the snapshot
    fetcher returns [None] without raising, and the run ends by its
    early return: it announces no topic, calls no model and posts
    nothing. *)
Theorem C5_empty_series_halts (cfg : config) (w : world) :
  select_mode (weekday (now_day w)) = MARKET ->
  history w = [] ->
  get_nasdaq_data strftime_Ymd (history w)
  = (Ok None, [Print PFetchingNasdaq; YFinanceHistory])
  /\ run cfg w
     = (MARKET, Ok tt,
        [Print PStarting; Print PModeMarket; Print PFetchingNasdaq;
         YFinanceHistory; Print PFailedFetch])
  /\ existsb is_generating (run_trace (run cfg w)) = false
  /\ existsb is_model_call (run_trace (run cfg w)) = false
  /\ existsb is_post (run_trace (run cfg w)) = false.
Proof.
  intros Hm Hh. unfold main. rewrite Hm, Hh. repeat split.
Qed.

(** C7.  When the base URL, the user name or the application password
    is missing (unset, or empty), the publisher returns [False] at once:
    its whole effect is two diagnostics, no request is issued, and the
    result does not depend on the encoder of the auth header. *)
Theorem C7_missing_credentials_no_request
    (cfg : config) (wp : pystr -> pystr -> pystr -> pystr -> post_outcome)
    (title content : pystr) :
  truthy_opt (WP_URL cfg) = false
  \/ truthy_opt (WP_USERNAME cfg) = false
  \/ truthy_opt (WP_APP_PASSWORD cfg) = false ->
  post_to_wordpress b64encode cfg wp title content
  = (Ok false, [Print PPosting; Print PCredentialsMissing])
  /\ existsb is_network
       (snd (post_to_wordpress b64encode cfg wp title content)) = false.
Proof.
  intro H. unfold post_to_wordpress.
  assert (E : negb (truthy_opt (WP_URL cfg))
              || negb (truthy_opt (WP_USERNAME cfg))
              || negb (truthy_opt (WP_APP_PASSWORD cfg)) = true).
  { destruct H as [-> | [-> | ->]]; simpl;
      rewrite ?orb_true_r; reflexivity. }
  rewrite E. split; reflexivity.
Qed.

(** When the model call raises, nothing is posted. *)
Lemma generation_exception_not_published (cfg : config) (w : world) :
  truthy_opt (GEMINI_API_KEY cfg) = true ->
  (forall p, model_reply w p = None) ->
  existsb is_post (run_trace (run cfg w)) = false.
Proof.
  intros Hk Hr.
  assert (T : forall topic data,
             existsb is_post (snd (shared_tail cfg w topic data)) = false).
  { intros topic data. unfold generate_and_post, generate_blog_content.
    rewrite Hk, Hr. simpl. destruct (truthy data); reflexivity. }
  unfold main, run_trace.
  destruct (select_mode _).
  - destruct (Scraper.get_google_finance_news (finance_page w)) as [data t1] eqn:Es.
    specialize (T news_topic data).
    destruct (generate_and_post b64encode cfg w news_topic data) as [r t2].
    simpl in *. rewrite existsb_app, T, orb_false_r.
    unfold Scraper.get_google_finance_news in Es.
    destruct (finance_page w) as [|p]; [injection Es as _ <-; reflexivity|].
    destruct (Scraper.digest p); injection Es as _ <-; reflexivity.
  - unfold get_nasdaq_data.
    destruct (nasdaq_snapshot strftime_Ymd (history w)) as [[d|]|];
      try reflexivity.
    specialize (T (market_topic d) (data_context float_str d)).
    destruct (generate_and_post b64encode cfg w (market_topic d)
                (data_context float_str d)) as [r t2].
    simpl in *. exact T.
Qed.

(** C8.  The claim says that a failed generation, the missing-API-key
    case included, is never published.  With the key unset the
    generator returns the pair ("Error: Gemini API Key not found.",
    "Error"), both non-empty, so on a Sunday with the news page
    unreachable and the WordPress credentials set the run calls no model
    and then posts that pair. *)
Theorem C8_missing_api_key_is_published :
  let cfg := {| WP_URL := Some (py "https://blog.example");
                WP_USERNAME := Some (py "bot");
                WP_APP_PASSWORD := Some (py "secret");
                GEMINI_API_KEY := None |} in
  let w := {| now_day := Sunday;
              today := py "2024-01-07";
              history := @nil (bar Timestamp);
              finance_page := Scraper.FetchRaised;
              model_reply := fun _ => None;
              wp_reply := fun _ _ _ _ => PostOk None |} in
  run cfg w
  = (NEWS, Ok tt,
     [Print PStarting; Print PModeNews; Print PFetchingNews;
      HttpGet (py "https://www.google.com/finance");
      Print PErrorFetchingNews;
      Print (PGenerating (py "Global Financial Market News & Updates"));
      Print PPosting;
      HttpPost (py "https://blog.example/wp-json/wp/v2/posts")
        (py "Basic " ++ b64encode (py "bot:secret"))
        (py "Error: Gemini API Key not found.") (py "Error");
      Print (PPosted None)])
  /\ existsb is_model_call (run_trace (run cfg w)) = false
  /\ existsb is_post (run_trace (run cfg w)) = true.
Proof. repeat split. Qed.

End RunFacts.

(** ** Concrete runs *)

Lemma C1_mode_by_weekday_witness :
  let cfg := {| WP_URL := None; WP_USERNAME := None;
                WP_APP_PASSWORD := None; GEMINI_API_KEY := Some (py "k") |} in
  let b := {| name := py "2024-01-02"; Open := F64.of_Z 14800;
              High := F64.of_Z 14900; Low := F64.of_Z 14700;
              Close := F64.of_Z 14850; Volume := 5000 |} in
  let w := {| now_day := Wednesday; today := py "2024-01-03";
              history := [b]; finance_page := Scraper.FetchRaised;
              model_reply := fun _ => None;
              wp_reply := fun _ _ _ _ => PostRaised |} in
  let r := main (fun t => t) (fun _ => py "0.0") (fun s => s) cfg w in
  run_mode r = MARKET
  /\ forall topic, In (Print (PGenerating topic)) (run_trace r) ->
       exists rest last_day,
         history w = rest ++ [last_day]
         /\ topic = py "Nasdaq Market Review (" ++ name last_day ++ py ")".
Proof.
  intros cfg b w r.
  destruct (C1_mode_by_weekday pystr (fun t => t) (fun _ => py "0.0")
              (fun s => s) cfg w) as (_ & Hm & _ & _ & Ht & _).
  split; [exact Hm|exact Ht].
Defined.

Lemma C5_empty_series_witness :
  let cfg := {| WP_URL := Some (py "https://blog.example");
                WP_USERNAME := Some (py "bot");
                WP_APP_PASSWORD := Some (py "secret");
                GEMINI_API_KEY := Some (py "k") |} in
  let w := {| now_day := Tuesday; today := py "2024-01-02";
              history := @nil (bar pystr);
              finance_page := Scraper.FetchRaised;
              model_reply := fun _ => Some (py "Title: t");
              wp_reply := fun _ _ _ _ => PostOk None |} in
  select_mode (weekday (now_day w)) = MARKET
  /\ history w = []
  /\ main (fun t => t) (fun _ => py "0.0") (fun s => s) cfg w
     = (MARKET, Ok tt,
        [Print PStarting; Print PModeMarket; Print PFetchingNasdaq;
         YFinanceHistory; Print PFailedFetch]).
Proof.
  intros cfg w. split; [reflexivity|]. split; [reflexivity|].
  destruct (C5_empty_series_halts pystr (fun t => t) (fun _ => py "0.0")
              (fun s => s) cfg w eq_refl eq_refl) as (_ & H & _).
  exact H.
Defined.

Lemma C7_missing_credentials_witness :
  let cfg := {| WP_URL := Some (py "https://blog.example");
                WP_USERNAME := Some (py "bot");
                WP_APP_PASSWORD := None;
                GEMINI_API_KEY := Some (py "k") |} in
  (truthy_opt (WP_URL cfg) = false
   \/ truthy_opt (WP_USERNAME cfg) = false
   \/ truthy_opt (WP_APP_PASSWORD cfg) = false)
  /\ post_to_wordpress (fun s => s) cfg (fun _ _ _ _ => PostOk None)
       (py "A title") (py "<p>A body</p>")
     = (Ok false, [Print PPosting; Print PCredentialsMissing]).
Proof.
  intro cfg.
  assert (H : truthy_opt (WP_URL cfg) = false
              \/ truthy_opt (WP_USERNAME cfg) = false
              \/ truthy_opt (WP_APP_PASSWORD cfg) = false)
    by (right; right; reflexivity).
  split; [exact H|].
  destruct (C7_missing_credentials_no_request (fun s => s) cfg
              (fun _ _ _ _ => PostOk None) (py "A title") (py "<p>A body</p>") H)
    as [E _].
  exact E.
Defined.

(** A Sunday run that goes through: one headline with a relative link,
    a well-formed reply whose body starts on the line after the Content
    line, and a post that succeeds. *)
Example sunday_run_publishes :
  let cfg := {| WP_URL := Some (py "https://blog.example");
                WP_USERNAME := Some (py "bot");
                WP_APP_PASSWORD := Some (py "secret");
                GEMINI_API_KEY := Some (py "k") |} in
  let a := {| Scraper.title_el := Some (py "Stocks rally");
              Scraper.link_el := Some {| Scraper.href := Some (py "./quote/X") |} |} in
  let w := {| now_day := Sunday; today := py "2024-01-07";
              history := @nil (bar pystr);
              finance_page :=
                Scraper.Fetched {| Scraper.divs_yY3Lee := [a];
                                   Scraper.divs_F2KAFc := [] |};
              model_reply := fun _ =>
                Some (py "Title: Rally" ++ nl :: py "Content:" ++ nl :: py "<p>Up.</p>");
              wp_reply := fun _ _ _ _ => PostOk (Some (py "https://blog.example/?p=1")) |} in
  let r := main (fun t => t) (fun _ => py "0.0") (fun s => s) cfg w in
  run_mode r = NEWS
  /\ run_result r = Ok tt
  /\ In (HttpPost (py "https://blog.example/wp-json/wp/v2/posts")
           (py "Basic bot:secret") (py "Rally") (py "<p>Up.</p>"))
        (run_trace r)
  /\ In (ModelGenerate
           (prompt (py "2024-01-07") (py "Global Financial Market News & Updates")
              (py "- Stocks rally (https://www.google.com/finance/quote/X)")))
        (run_trace r).
Proof.
  intros cfg a w r. vm_compute. intuition.
Qed.

(** A reply in the very shape the prompt asks for, with the body on the
    Content line, parses to an empty body, and the run posts nothing. *)
Example one_line_content_not_published :
  let cfg := {| WP_URL := Some (py "https://blog.example");
                WP_USERNAME := Some (py "bot");
                WP_APP_PASSWORD := Some (py "secret");
                GEMINI_API_KEY := Some (py "k") |} in
  let w := {| now_day := Monday; today := py "2024-01-08";
              history := @nil (bar pystr);
              finance_page := Scraper.FetchRaised;
              model_reply := fun _ =>
                Some (py "Title: Rally" ++ nl :: py "Content: <p>Up.</p>");
              wp_reply := fun _ _ _ _ => PostOk None |} in
  Parser.parse_response (py "Title: Rally" ++ nl :: py "Content: <p>Up.</p>")
  = Some (py "Rally", [])
  /\ existsb is_post
       (run_trace (main (fun t => t) (fun _ => py "0.0") (fun s => s) cfg w))
     = false.
Proof. intros cfg w. split; reflexivity. Qed.

(** * Further properties of the script *)

(** ** Trimming and splitting *)

Lemma lstrip_app_space (ws y : pystr) :
  all_space ws -> lstrip (ws ++ y) = lstrip y.
Proof.
  induction 1 as [|c ws Hc _ IH]; simpl; [reflexivity|]. now rewrite Hc.
Qed.

Lemma lstrip_decomp (s : pystr) :
  exists ws, all_space ws /\ s = ws ++ lstrip s.
Proof.
  induction s as [|c s (ws & Hws & E)]; simpl.
  - exists []. split; [constructor|reflexivity].
  - destruct (isspace c) eqn:Hc.
    + exists (c :: ws). split; [now constructor|]. simpl. now f_equal.
    + exists []. split; [constructor|reflexivity].
Qed.

Lemma lstrip_head (s r : pystr) (c : N) :
  lstrip s = c :: r -> isspace c = false.
Proof.
  induction s as [|a s IH]; simpl; [discriminate|].
  destruct (isspace a) eqn:Ha; [exact IH|].
  intro E. injection E as <- _. exact Ha.
Qed.

Lemma lstrip_fixed (s : pystr) :
  match s with [] => True | c :: _ => isspace c = false end -> lstrip s = s.
Proof. destruct s as [|c s]; simpl; [reflexivity|]. now intros ->. Qed.

Lemma lstrip_idem (s : pystr) : lstrip (lstrip s) = lstrip s.
Proof.
  apply lstrip_fixed. destruct (lstrip s) as [|c r] eqn:E; [exact I|].
  exact (lstrip_head _ _ _ E).
Qed.

Lemma all_space_rev (ws : pystr) : all_space ws -> all_space (rev ws).
Proof. unfold all_space. apply Forall_rev. Qed.

Lemma rstrip_app_space (x ws : pystr) :
  all_space ws -> rstrip (x ++ ws) = rstrip x.
Proof.
  intro H. unfold rstrip. rewrite rev_app_distr.
  now rewrite lstrip_app_space by now apply all_space_rev.
Qed.

Lemma rstrip_decomp (s : pystr) :
  exists ws, all_space ws /\ s = rstrip s ++ ws.
Proof.
  destruct (lstrip_decomp (rev s)) as (ws & Hws & E).
  exists (rev ws). split; [now apply all_space_rev|].
  unfold rstrip. rewrite <- rev_app_distr, <- E. now rewrite rev_involutive.
Qed.

Lemma rstrip_idem (s : pystr) : rstrip (rstrip s) = rstrip s.
Proof. unfold rstrip. now rewrite rev_involutive, lstrip_idem. Qed.

Lemma strip_decomp (s : pystr) :
  exists w1 w2, all_space w1 /\ all_space w2 /\ s = w1 ++ strip s ++ w2.
Proof.
  destruct (lstrip_decomp s) as (w1 & H1 & E1).
  destruct (rstrip_decomp (lstrip s)) as (w2 & H2 & E2).
  exists w1, w2. repeat split; try assumption.
  unfold strip. now rewrite <- E2.
Qed.

Lemma lstrip_all_space (ws : pystr) : all_space ws -> lstrip ws = [].
Proof.
  intro H. rewrite <- (app_nil_r ws). now rewrite lstrip_app_space.
Qed.

Lemma strip_app_space (x ws : pystr) :
  all_space ws -> strip (x ++ ws) = strip x.
Proof.
  intro H. unfold strip.
  destruct (lstrip_decomp x) as (w & Hw & E).
  destruct (lstrip x) as [|c r] eqn:El.
  - rewrite app_nil_r in E. subst w.
    rewrite lstrip_all_space; [reflexivity|].
    unfold all_space in *. apply Forall_app. now split.
  - rewrite E at 1. rewrite <- app_assoc, lstrip_app_space by assumption.
    simpl. rewrite (lstrip_head _ _ _ El).
    change (c :: r ++ ws) with ((c :: r) ++ ws).
    now rewrite (rstrip_app_space (c :: r) ws H).
Qed.

Lemma strip_idem (s : pystr) : strip (strip s) = strip s.
Proof.
  unfold strip at 1 3.
  assert (L : lstrip (strip s) = strip s).
  { apply lstrip_fixed. unfold strip.
    destruct (rstrip_decomp (lstrip s)) as (w & _ & E).
    destruct (rstrip (lstrip s)) as [|c r] eqn:Er; [exact I|].
    simpl in E. exact (lstrip_head _ _ _ E). }
  rewrite L. unfold strip. apply rstrip_idem.
Qed.

Lemma after_first_colon_skip_space (ws x : pystr) :
  all_space ws -> after_first_colon (ws ++ x) = after_first_colon x.
Proof.
  induction 1 as [|c ws Hc _ IH]; simpl; [reflexivity|].
  destruct (N.eqb_spec c colon) as [->|_]; [discriminate Hc|exact IH].
Qed.

Lemma after_first_colon_suffix (line t : pystr) :
  after_first_colon line = Some t -> exists pre, line = pre ++ t.
Proof.
  revert t. induction line as [|c line IH]; simpl; [discriminate|].
  intros t. destruct (N.eqb c colon).
  - intro E. injection E as <-. now exists [c].
  - intro E. destruct (IH _ E) as [pre ->]. now exists (c :: pre).
Qed.

Lemma split_nl_no_newline (text : pystr) :
  Forall (fun l => ~ In nl l) (split_nl text).
Proof.
  induction text as [|c text IH]; simpl.
  - constructor; [intros []|constructor].
  - destruct (N.eqb_spec c nl) as [->|Hc].
    + constructor; [intros []|exact IH].
    + destruct (split_nl text) as [|l ls].
      * constructor; [|constructor]. intros [H|[]]. now apply Hc.
      * inversion IH; subst. constructor; [|assumption].
        intros [H|H]; [now apply Hc|contradiction].
Qed.

Lemma split_nl_nonempty (text : pystr) : split_nl text <> [].
Proof.
  destruct text as [|c text]; simpl; [discriminate|].
  destruct (N.eqb c nl); [discriminate|].
  destruct (split_nl text); discriminate.
Qed.

(** Joining the lines of a text gives the text back. *)
Lemma join_split (text : pystr) : join_nl (split_nl text) = text.
Proof.
  induction text as [|c text IH]; [reflexivity|]. simpl.
  pose proof (split_nl_nonempty text) as Hne.
  destruct (N.eqb_spec c nl) as [->|Hc].
  - destruct (split_nl text) as [|l ls]; [contradiction|].
    simpl in *. now rewrite IH.
  - destruct (split_nl text) as [|l ls]; [contradiction|].
    destruct ls; simpl in *; now rewrite <- IH.
Qed.

Lemma join_nl_app (a b : list pystr) :
  a <> [] -> b <> [] ->
  join_nl (a ++ b) = join_nl a ++ nl :: join_nl b.
Proof.
  intros Ha Hb. induction a as [|x a IH]; [contradiction|].
  destruct a as [|y a].
  - destruct b as [|z b]; [contradiction|]. reflexivity.
  - change (join_nl ((x :: y :: a) ++ b))
      with (x ++ nl :: join_nl ((y :: a) ++ b)).
    rewrite IH by discriminate.
    change (join_nl (x :: y :: a)) with (x ++ nl :: join_nl (y :: a)).
    now rewrite <- app_assoc.
Qed.

(** ** More on the response parser *)

Lemma scan_title_origin (ls : list pystr) :
  forall t0 c0 t c,
    Parser.scan ls t0 c0 = Some (t, c) ->
    t = t0
    \/ exists line x,
         In line ls /\ after_first_colon line = Some x /\ t = strip x.
Proof.
  induction ls as [|l ls IH]; simpl; intros t0 c0 t c H.
  - injection H as <- _. now left.
  - destruct (Parser.is_title_line l).
    + destruct (after_first_colon l) as [x|] eqn:Ex; [|discriminate].
      destruct (IH _ _ _ _ H) as [->|(line & y & Hin & Hy & ->)].
      * right. exists l, x. auto.
      * right. exists line, y. auto.
    + destruct (Parser.is_content_line l).
      * injection H as <- _. now left.
      * destruct (IH _ _ _ _ H) as [->|(line & y & Hin & Hy & ->)];
          [now left|right; exists line, y; auto].
Qed.

Lemma scan_content_cases (ls : list pystr) :
  forall t0 c0 t c,
    Parser.scan ls t0 c0 = Some (t, c) ->
    (Forall (fun l => Parser.is_content_line l = false) ls /\ c = c0)
    \/ exists pre cl post,
         ls = pre ++ cl :: post
         /\ Forall (fun l => Parser.is_content_line l = false) pre
         /\ Parser.is_content_line cl = true
         /\ c = join_nl post.
Proof.
  induction ls as [|l ls IH]; simpl; intros t0 c0 t c H.
  - injection H as _ <-. left. split; [constructor|reflexivity].
  - assert (Lift : forall t1,
               Parser.is_content_line l = false ->
               Parser.scan ls t1 c0 = Some (t, c) ->
               (Forall (fun l => Parser.is_content_line l = false) (l :: ls)
                /\ c = c0)
               \/ exists pre cl post,
                    l :: ls = pre ++ cl :: post
                    /\ Forall (fun l => Parser.is_content_line l = false) pre
                    /\ Parser.is_content_line cl = true
                    /\ c = join_nl post).
    { intros t1 Hl H1.
      destruct (IH _ _ _ _ H1) as [[F ->]|(pre & cl & post & -> & F & Hc & ->)].
      - left. split; [now constructor|reflexivity].
      - right. exists (l :: pre), cl, post.
        repeat split; try assumption. now constructor. }
    destruct (Parser.is_title_line l) eqn:Ht.
    + destruct (after_first_colon l) as [x|]; [|discriminate].
      eapply Lift; [now apply title_line_not_content|exact H].
    + destruct (Parser.is_content_line l) eqn:Hc.
      * injection H as _ <-. right. exists [], l, ls.
        repeat split; [constructor|assumption].
      * eapply Lift; [reflexivity|exact H].
Qed.

Lemma scan_no_content (ls : list pystr) :
  Forall (fun l => Parser.is_content_line l = false) ls ->
  forall t0 c0, exists t, Parser.scan ls t0 c0 = Some (t, c0).
Proof.
  induction 1 as [|l ls Hl _ IH]; intros t0 c0; simpl; [eauto|].
  destruct (Parser.is_title_line l) eqn:Ht.
  - destruct (title_line_has_colon l Ht) as [x ->]. apply IH.
  - rewrite Hl. apply IH.
Qed.

(** X1.  A line that, once trimmed, reads "Title:" (or its Korean
    form) followed by [rest] sets the title to [rest] trimmed, whatever
    whitespace surrounds the line and whatever colons [rest] holds, and
    the scan goes on with the next line. *)
Theorem X1_title_is_trimmed_text_after_marker
    (line rest : pystr) (ls : list pystr) (title content : pystr) :
  strip line = py "Title:" ++ rest
  \/ strip line = Parser.marker_Title_ko ++ rest ->
  Parser.scan (line :: ls) title content
  = Parser.scan ls (strip rest) content.
Proof.
  intro H.
  assert (Ht : Parser.is_title_line line = true).
  { unfold Parser.is_title_line.
    destruct H as [-> | ->].
    - change (py "Title:") with Parser.marker_Title.
      now rewrite startswith_app.
    - rewrite (startswith_app Parser.marker_Title_ko rest). apply orb_true_r. }
  destruct (strip_decomp line) as (w1 & w2 & H1 & H2 & E).
  assert (Ec : after_first_colon line = Some (rest ++ w2)).
  { rewrite E, after_first_colon_skip_space by assumption.
    destruct H as [-> | ->]; reflexivity. }
  simpl. rewrite Ht, Ec. now rewrite strip_app_space.
Qed.

Lemma X1_title_witness :
  let line := py "   Title:  Rates: up again  " in
  (strip line = py "Title:" ++ py "  Rates: up again"
   \/ strip line = Parser.marker_Title_ko ++ py "  Rates: up again")
  /\ Parser.scan [line] (py "Market Update") (py "raw")
     = Some (py "Rates: up again", py "raw").
Proof.
  intro line.
  assert (H : strip line = py "Title:" ++ py "  Rates: up again"
              \/ strip line = Parser.marker_Title_ko ++ py "  Rates: up again")
    by (left; reflexivity).
  split; [exact H|].
  exact (X1_title_is_trimmed_text_after_marker line (py "  Rates: up again")
           [] (py "Market Update") (py "raw") H).
Defined.

(** X2.  Whatever the response, the parsed title is a single line
    without leading or trailing whitespace. *)
Theorem X2_title_is_one_trimmed_line (text title content : pystr) :
  Parser.parse_response text = Some (title, content) ->
  ~ In nl title /\ strip title = title.
Proof.
  unfold Parser.parse_response. intro H.
  destruct (scan_title_origin _ _ _ _ _ H) as [->|(line & x & Hin & Hx & ->)].
  - split; [|reflexivity]. vm_compute. intuition discriminate.
  - split; [|apply strip_idem].
    intro Hn. apply In_strip in Hn.
    destruct (after_first_colon_suffix _ _ Hx) as [pre ->].
    pose proof (split_nl_no_newline text) as F.
    rewrite Forall_forall in F. apply (F _ Hin).
    apply in_or_app. now right.
Qed.

Lemma X2_title_witness :
  let text := py " Title:   Calm week  " ++ nl :: py "Content:" ++ nl :: py "<p>x</p>" in
  Parser.parse_response text = Some (py "Calm week", py "<p>x</p>")
  /\ ~ In nl (py "Calm week") /\ strip (py "Calm week") = py "Calm week".
Proof.
  intro text.
  assert (H : Parser.parse_response text = Some (py "Calm week", py "<p>x</p>"))
    by reflexivity.
  split; [exact H|].
  exact (X2_title_is_one_trimmed_line text _ _ H).
Defined.

(** X3.  The parsed body is either the whole raw response, when no
    line is Content-marked, or exactly the text that follows the first
    Content-marked line: the response is the lines up to and including
    that line, a newline, and the body (and the body is empty when that
    line is the last one). *)
Theorem X3_body_is_whole_or_follows_content_line
    (text title content : pystr) :
  Parser.parse_response text = Some (title, content) ->
  (Forall (fun l => Parser.is_content_line l = false) (split_nl text)
   /\ content = text)
  \/ exists pre c post,
       split_nl text = pre ++ c :: post
       /\ Forall (fun l => Parser.is_content_line l = false) pre
       /\ Parser.is_content_line c = true
       /\ content = join_nl post
       /\ text = join_nl (pre ++ [c])
                 ++ match post with
                    | [] => []
                    | _ :: _ => nl :: content
                    end.
Proof.
  unfold Parser.parse_response. intro H.
  destruct (scan_content_cases _ _ _ _ _ H)
    as [[F ->]|(pre & c & post & E & F & Hc & ->)].
  - now left.
  - right. exists pre, c, post. repeat split; try assumption.
    rewrite <- (join_split text) at 1. rewrite E.
    change (pre ++ c :: post) with (pre ++ [c] ++ post). rewrite app_assoc.
    destruct post as [|q post].
    + now rewrite !app_nil_r.
    + apply join_nl_app; [|discriminate]. now destruct pre.
Qed.

Lemma X3_body_witness :
  let text := py "Title: T" ++ nl :: py "Content: lost" ++ nl :: py "kept" in
  Parser.parse_response text = Some (py "T", py "kept")
  /\ exists pre c post,
       split_nl text = pre ++ c :: post
       /\ Parser.is_content_line c = true
       /\ py "kept" = join_nl post
       /\ text = join_nl (pre ++ [c]) ++ nl :: py "kept".
Proof.
  intro text.
  assert (H : Parser.parse_response text = Some (py "T", py "kept"))
    by reflexivity.
  split; [exact H|].
  destruct (X3_body_is_whole_or_follows_content_line text _ _ H)
    as [[_ E]|(pre & c & post & E & _ & Hc & Hj & Ht)].
  - discriminate E.
  - exists pre, c, post. repeat split; try assumption.
    destruct post as [|q post]; [discriminate Hj|exact Ht].
Defined.

(** X4.  When no line is Content-marked, the body is the whole raw
    response, Title-marked lines included: a title line is not removed
    from the body it is taken from. *)
Theorem X4_no_content_line_keeps_whole_response (text : pystr) :
  Forall (fun l => Parser.is_content_line l = false) (split_nl text) ->
  exists title, Parser.parse_response text = Some (title, text).
Proof.
  intro H. unfold Parser.parse_response. now apply scan_no_content.
Qed.

Lemma X4_no_content_witness :
  let text := py "Title: Only a title" ++ nl :: py "<p>body</p>" in
  Forall (fun l => Parser.is_content_line l = false) (split_nl text)
  /\ Parser.parse_response text = Some (py "Only a title", text).
Proof.
  intro text.
  assert (H : Forall (fun l => Parser.is_content_line l = false) (split_nl text))
    by (repeat constructor).
  split; [exact H|].
  destruct (X4_no_content_line_keeps_whole_response text H) as [t Ht].
  rewrite Ht. f_equal. f_equal.
  assert (E : Parser.parse_response text = Some (py "Only a title", text))
    by reflexivity.
  rewrite E in Ht. now injection Ht as <-.
Defined.

(** X5.  With the API key set, a reply of the model is always turned
    into a title and a body: the generator makes one model call and its
    failure pair (None, None) comes from the call alone, never from the
    parsing, since a Title-marked line always holds a colon. *)
Theorem X5_reply_always_parsed
    (cfg : config) (reply : pystr -> option pystr)
    (today topic data_context text : pystr) :
  truthy_opt (GEMINI_API_KEY cfg) = true ->
  reply (prompt today topic data_context) = Some text ->
  exists title content,
    Parser.parse_response text = Some (title, content)
    /\ generate_blog_content cfg reply today topic data_context
       = ((Some title, Some content),
          [Print (PGenerating topic);
           ModelGenerate (prompt today topic data_context)]).
Proof.
  intros Hk Hr. destruct (parse_response_total text) as (t & c & Hp).
  exists t, c. split; [exact Hp|].
  unfold generate_blog_content. now rewrite Hk, Hr, Hp.
Qed.

Lemma X5_reply_witness :
  let cfg := {| WP_URL := None; WP_USERNAME := None;
                WP_APP_PASSWORD := None; GEMINI_API_KEY := Some (py "k") |} in
  let reply := fun _ : pystr => Some (py "Title:") in
  truthy_opt (GEMINI_API_KEY cfg) = true
  /\ reply (prompt (py "2024-01-07") (py "t") (py "d")) = Some (py "Title:")
  /\ fst (generate_blog_content cfg reply (py "2024-01-07") (py "t") (py "d"))
     = (Some [], Some (py "Title:")).
Proof.
  intros cfg reply. split; [reflexivity|]. split; [reflexivity|].
  destruct (X5_reply_always_parsed cfg reply (py "2024-01-07") (py "t") (py "d")
              (py "Title:") eq_refl eq_refl) as (t & c & Hp & Hg).
  rewrite Hg. simpl.
  assert (E : Parser.parse_response (py "Title:") = Some ([], py "Title:"))
    by reflexivity.
  rewrite E in Hp. now injection Hp as <- <-.
Defined.

(** ** More on the news scraper *)

Lemma collect_key_error (arts : list Scraper.article) (a : Scraper.article) :
  In a arts ->
  Scraper.title_el a <> None ->
  Scraper.raw_link a = None ->
  forall acc, Scraper.collect arts acc = None.
Proof.
  induction arts as [|b arts IH]; intros Hin Ht Hl acc; [destruct Hin|].
  simpl. destruct Hin as [->|Hin].
  - destruct (Scraper.title_el a); [now rewrite Hl|now contradiction Ht].
  - destruct (Scraper.title_el b); [|now apply IH].
    destruct (Scraper.raw_link b); [now apply IH|reflexivity].
Qed.

Lemma flat_map_length_le (A B : Type) (f : A -> list B) (l : list A) :
  (forall a, List.length (f a) <= 1)%nat ->
  (List.length (flat_map f l) <= List.length l)%nat.
Proof.
  intro H. induction l as [|a l IH]; simpl; [lia|].
  rewrite length_app. specialize (H a). lia.
Qed.

(** X6.  When the page is fetched and no headline container among the
    first five has an anchor without href, the digest is, in page order,
    one bullet "- headline (link)" for each of those containers that has
    a headline element, with the link normalised and "#" standing for a
    missing anchor: at most five bullets, joined by newlines, or the
    fixed instruction when there is none. *)
Theorem X6_digest_is_bullets_in_page_order (p : Scraper.page) :
  let bullets :=
    flat_map
      (fun a => match Scraper.title_el a, Scraper.raw_link a with
                | Some t, Some l =>
                    [py "- " ++ t ++ py " (" ++ Scraper.normalize_link l ++ py ")"]
                | _, _ => []
                end)
      (firstn 5 (Scraper.select_articles p)) in
  Forall (fun a => Scraper.title_el a <> None -> Scraper.raw_link a <> None)
    (firstn 5 (Scraper.select_articles p)) ->
  (List.length bullets <= 5)%nat
  /\ Scraper.get_google_finance_news (Scraper.Fetched p)
     = (match bullets with
        | [] => Scraper.no_headlines_msg
        | _ :: _ => join_nl bullets
        end,
        [Print PFetchingNews; HttpGet Scraper.finance_url]).
Proof.
  intros bullets H. split.
  - subst bullets.
    etransitivity; [apply flat_map_length_le|].
    + intro a. destruct (Scraper.title_el a), (Scraper.raw_link a); simpl; lia.
    + rewrite length_firstn. lia.
  - assert (E : Scraper.collect (firstn 5 (Scraper.select_articles p)) []
                = Some bullets) by exact (collect_bullets _ H []).
    unfold Scraper.get_google_finance_news, Scraper.digest.
    rewrite E. clearbody bullets. now destruct bullets.
Qed.

Lemma X6_digest_witness :
  let mk t l := {| Scraper.title_el := t; Scraper.link_el := l |} in
  let a1 := mk (Some (py "Fed holds"))
               (Some {| Scraper.href := Some (py "./articles/1") |}) in
  let a2 := mk None (Some {| Scraper.href := None |}) in
  let a3 := mk (Some (py "Oil slips")) None in
  let p := {| Scraper.divs_yY3Lee := [a1; a2; a3];
              Scraper.divs_F2KAFc := [] |} in
  Forall (fun a => Scraper.title_el a <> None -> Scraper.raw_link a <> None)
    (firstn 5 (Scraper.select_articles p))
  /\ fst (Scraper.get_google_finance_news (Scraper.Fetched p))
     = py "- Fed holds (https://www.google.com/finance/articles/1)"
       ++ nl :: py "- Oil slips (#)".
Proof.
  intros mk a1 a2 a3 p.
  assert (H : Forall (fun a => Scraper.title_el a <> None ->
                               Scraper.raw_link a <> None)
                (firstn 5 (Scraper.select_articles p))).
  { repeat constructor; simpl; intros; try discriminate; now contradiction H. }
  split; [exact H|].
  destruct (X6_digest_is_bullets_in_page_order p H) as [_ E].
  rewrite E. reflexivity.
Defined.

(** X7.  One headline container among the first five whose anchor has
    no href is enough to lose the whole digest: the lookup raises, the
    handler catches it, and the scraper returns "Error fetching news."
    whatever headlines came before. *)
Theorem X7_anchor_without_href_loses_digest
    (p : Scraper.page) (a : Scraper.article) :
  In a (firstn 5 (Scraper.select_articles p)) ->
  Scraper.title_el a <> None ->
  Scraper.link_el a = Some {| Scraper.href := None |} ->
  Scraper.get_google_finance_news (Scraper.Fetched p)
  = (py "Error fetching news.",
     [Print PFetchingNews; HttpGet Scraper.finance_url; Print PErrorFetchingNews]).
Proof.
  intros Hin Ht Hl.
  assert (Hr : Scraper.raw_link a = None).
  { unfold Scraper.raw_link. now rewrite Hl. }
  unfold Scraper.get_google_finance_news, Scraper.digest.
  now rewrite (collect_key_error _ a Hin Ht Hr).
Qed.

Lemma X7_anchor_without_href_witness :
  let good := {| Scraper.title_el := Some (py "Fed holds");
                 Scraper.link_el :=
                   Some {| Scraper.href := Some (py "/a") |} |} in
  let bad := {| Scraper.title_el := Some (py "Oil slips");
                Scraper.link_el := Some {| Scraper.href := None |} |} in
  let p := {| Scraper.divs_yY3Lee := [good; bad];
              Scraper.divs_F2KAFc := [] |} in
  In bad (firstn 5 (Scraper.select_articles p))
  /\ Scraper.title_el bad <> None
  /\ Scraper.link_el bad = Some {| Scraper.href := None |}
  /\ fst (Scraper.get_google_finance_news (Scraper.Fetched p))
     = py "Error fetching news.".
Proof.
  intros good bad p.
  assert (H1 : In bad (firstn 5 (Scraper.select_articles p)))
    by (right; left; reflexivity).
  assert (H2 : Scraper.title_el bad <> None) by discriminate.
  split; [exact H1|]. split; [exact H2|]. split; [reflexivity|].
  now rewrite (X7_anchor_without_href_loses_digest p bad H1 H2 eq_refl).
Defined.

(** X8.  Normalising a link twice is the same as normalising it once:
    a rewritten link starts with "https:", which neither rule touches. *)
Theorem X8_normalize_link_idempotent (link : pystr) :
  Scraper.normalize_link (Scraper.normalize_link link)
  = Scraper.normalize_link link.
Proof.
  destruct (startswith link (py "./")) eqn:H1.
  - assert (E : Scraper.normalize_link link
                = Scraper.finance_url ++ skipn 1 link)
      by (unfold Scraper.normalize_link; now rewrite H1).
    rewrite E. reflexivity.
  - destruct (startswith link (py "/")) eqn:H2.
    + assert (E : Scraper.normalize_link link = Scraper.origin_url ++ link)
        by (unfold Scraper.normalize_link; now rewrite H1, H2).
      rewrite E. reflexivity.
    + assert (E : Scraper.normalize_link link = link)
        by (unfold Scraper.normalize_link; now rewrite H1, H2).
      now rewrite !E.
Qed.

(** ** More on the market snapshot *)

Section MoreSnapshotFacts.

Variable Timestamp : Type.
Variable strftime_Ymd : Timestamp -> pystr.

Local Abbreviation bar := (bar Timestamp).

(** X9.  The snapshot fetcher never raises on the rows it is given:
    both negative indexings are in range whenever they are reached, and
    it returns [None] exactly when the series is empty. *)
Theorem X9_snapshot_none_iff_empty (hist : list bar) :
  nasdaq_snapshot strftime_Ymd hist <> Raise
  /\ (nasdaq_snapshot strftime_Ymd hist = Ok None <-> hist = []).
Proof.
  destruct (list_snoc_cases _ hist) as [->|(rest & last & ->)].
  - split; [discriminate|]. split; reflexivity.
  - rewrite nasdaq_snapshot_nonempty. split; [discriminate|].
    split; [discriminate|]. intro E. now destruct rest.
Qed.

(** X10.  Only the last two rows count: the rows before them, which
    the five-day request brings along, leave the snapshot unchanged. *)
Theorem X10_snapshot_uses_last_two_rows (rest : list bar) (prev last : bar) :
  nasdaq_snapshot strftime_Ymd (rest ++ [prev; last])
  = nasdaq_snapshot strftime_Ymd [prev; last].
Proof.
  change [prev; last] with ([prev] ++ [last]).
  rewrite app_assoc.
  rewrite (nasdaq_snapshot_nonempty _ strftime_Ymd (rest ++ [prev]) last).
  rewrite (nasdaq_snapshot_nonempty _ strftime_Ymd [prev] last).
  now rewrite last_last.
Qed.

(** X11.  A flat day: when the last two closes are the same finite,
    non-zero number, change and change_percent are both zero. *)
Theorem X11_flat_day_has_zero_change
    (rest : list bar) (prev last : bar) :
  Close last = Close prev ->
  F64.is_finite (Close last) = true ->
  F64.is_zero (Close last) = false ->
  exists d,
    nasdaq_snapshot strftime_Ymd (rest ++ [prev; last]) = Ok (Some d)
    /\ F64.eqb (change d) F64.zero = true
    /\ F64.eqb (change_percent d) F64.zero = true.
Proof.
  intros E Hfin Hnz.
  change [prev; last] with ([prev] ++ [last]). rewrite app_assoc.
  rewrite (nasdaq_snapshot_nonempty _ strftime_Ymd (rest ++ [prev]) last).
  rewrite last_last. eexists. split; [reflexivity|]. simpl.
  rewrite <- E.
  destruct (Close last) as [s|s| |s m e]; try discriminate.
  rewrite sub_self_finite, percent_of_zero_change.
  change F64.zero with (S754_zero false). rewrite !round2_zero.
  destruct s; split; reflexivity.
Qed.

End MoreSnapshotFacts.

Lemma X11_flat_day_witness :
  let mk c := {| name := py "d"; Open := c; High := c; Low := c;
                 Close := c; Volume := 1 |} in
  let prev := mk (F64.of_Z 14850) in
  let last := mk (F64.of_Z 14850) in
  Close last = Close prev
  /\ F64.is_finite (Close last) = true
  /\ F64.is_zero (Close last) = false
  /\ exists d,
       nasdaq_snapshot (fun t => t) ([] ++ [prev; last]) = Ok (Some d)
       /\ F64.eqb (change d) F64.zero = true
       /\ F64.eqb (change_percent d) F64.zero = true.
Proof.
  intros mk prev last.
  split; [reflexivity|]. split; [reflexivity|]. split; [reflexivity|].
  exact (X11_flat_day_has_zero_change pystr (fun t => t) [] prev last
           eq_refl eq_refl eq_refl).
Defined.

(** ** More on the publisher and on the run as a whole *)

Lemma filter_none (A : Type) (f : A -> bool) (l : list A) :
  Forall (fun e => f e = false) l -> filter f l = [].
Proof.
  induction 1 as [|a l Ha _ IH]; simpl; [reflexivity|]. now rewrite Ha.
Qed.

Ltac split_bools :=
  repeat match goal with
         | H : (_ || _)%bool = false |- _ => apply orb_false_iff in H; destruct H
         | H : (_ && _)%bool = true |- _ => apply andb_true_iff in H; destruct H
         | H : negb _ = false |- _ => apply negb_false_iff in H
         | H : negb _ = true |- _ => apply negb_true_iff in H
         | H : (_, _) = (_, _) |- _ => injection H as <- <-
         end.

Ltac in_cases H :=
  simpl in H;
  repeat match type of H with
         | _ \/ _ => destruct H as [H|H]
         | False => destruct H
         end;
  try discriminate H.

Section MoreRunFacts.

Variable Timestamp : Type.
Variable strftime_Ymd : Timestamp -> pystr.
Variable float_str : F64.float -> pystr.
Variable b64encode : pystr -> pystr.

Local Abbreviation world := (world Timestamp).
Local Abbreviation run := (main strftime_Ymd float_str b64encode).
Local Abbreviation shared_tail := (generate_and_post b64encode).
Local Abbreviation post := (post_to_wordpress b64encode).

(** A run either stops on an empty series, or collects non-empty data
    and hands it to the shared tail of [main]. *)
Lemma main_cases (cfg : config) (w : world) :
  (select_mode (weekday (now_day w)) = MARKET
   /\ history w = []
   /\ run cfg w
      = (MARKET, Ok tt,
         [Print PStarting; Print PModeMarket; Print PFetchingNasdaq;
          YFinanceHistory; Print PFailedFetch]))
  \/ exists m topic data pre,
       truthy data = true
       /\ Forall (fun e => is_post e = false /\ is_model_call e = false
                           /\ e <> Print PNoData) pre
       /\ run cfg w
          = (m, fst (shared_tail cfg w topic data),
             pre ++ snd (shared_tail cfg w topic data)).
Proof.
  unfold main. destruct (select_mode (weekday (now_day w))) eqn:Hm.
  - right.
    pose proof (scraper_result_truthy (finance_page w)) as Htr.
    destruct (Scraper.get_google_finance_news (finance_page w)) as [data t1] eqn:Es.
    exists NEWS, news_topic, data, (Print PStarting :: Print PModeNews :: t1).
    split; [exact Htr|]. split.
    + unfold Scraper.get_google_finance_news in Es.
      destruct (finance_page w) as [|p]; [|destruct (Scraper.digest p)];
        injection Es as _ <-; repeat constructor; discriminate.
    + now destruct (generate_and_post b64encode cfg w news_topic data).
  - unfold get_nasdaq_data.
    destruct (list_snoc_cases _ (history w)) as [E|(rest & last & E)]; rewrite E.
    + left. repeat split.
    + right. rewrite nasdaq_snapshot_nonempty.
      set (d := {| date := strftime_Ymd (name last) |}).
      exists MARKET, (market_topic d), (data_context float_str d),
        [Print PStarting; Print PModeMarket; Print PFetchingNasdaq; YFinanceHistory].
      split; [reflexivity|]. split; [repeat constructor; discriminate|].
      now destruct (generate_and_post b64encode cfg w (market_topic d)
                      (data_context float_str d)).
Qed.

(** What the shared tail does once it has non-empty data. *)
Lemma tail_counts (cfg : config) (w : world) (topic data : pystr) :
  (List.length (filter is_model_call (snd (shared_tail cfg w topic data))) <= 1)%nat
  /\ (List.length (filter is_post (snd (shared_tail cfg w topic data))) <= 1)%nat.
Proof.
  unfold generate_and_post, generate_blog_content, post_to_wordpress.
  repeat break_inner_match; split_bools; simpl; lia.
Qed.

Lemma tail_no_data_print (cfg : config) (w : world) (topic data : pystr) :
  truthy data = true ->
  ~ In (Print PNoData) (snd (shared_tail cfg w topic data)).
Proof.
  intros Hd H. revert H.
  unfold generate_and_post, generate_blog_content, post_to_wordpress.
  rewrite Hd. simpl negb. cbv iota.
  repeat break_inner_match; split_bools; intro Hin; in_cases Hin.
Qed.

Lemma tail_post_facts (cfg : config) (w : world) (topic data : pystr)
    (u a ti co : pystr) :
  In (HttpPost u a ti co) (snd (shared_tail cfg w topic data)) ->
  truthy ti = true /\ truthy co = true
  /\ truthy_opt (WP_URL cfg) = true
  /\ truthy_opt (WP_USERNAME cfg) = true
  /\ truthy_opt (WP_APP_PASSWORD cfg) = true
  /\ u = fmt_opt (WP_URL cfg) ++ py "/wp-json/wp/v2/posts"
  /\ a = py "Basic "
         ++ b64encode (fmt_opt (WP_USERNAME cfg) ++ py ":"
                       ++ fmt_opt (WP_APP_PASSWORD cfg))
  /\ (wp_reply w u a ti co = PostRaised ->
      fst (shared_tail cfg w topic data) = Raise)
  /\ (truthy_opt (GEMINI_API_KEY cfg) = true ->
      exists text,
        model_reply w (prompt (today w) topic data) = Some text
        /\ Parser.parse_response text = Some (ti, co)
        /\ In (ModelGenerate (prompt (today w) topic data))
             (snd (shared_tail cfg w topic data))).
Proof.
  unfold generate_and_post, generate_blog_content, post_to_wordpress.
  repeat break_inner_match; split_bools; intro Hin; in_cases Hin;
    injection Hin as <- <- <- <-;
    repeat match goal with
           | |- _ /\ _ => split
           end;
    try assumption; try reflexivity;
    try (intro E; simpl in *; congruence);
    try (intros _; eexists; split; [reflexivity|]; split;
         [assumption|simpl; auto]).
Qed.


Lemma tail_unusable_reply (cfg : config) (w : world)
    (topic data text ti co : pystr) :
  truthy data = true ->
  truthy_opt (GEMINI_API_KEY cfg) = true ->
  model_reply w (prompt (today w) topic data) = Some text ->
  Parser.parse_response text = Some (ti, co) ->
  truthy ti && truthy co = false ->
  shared_tail cfg w topic data
  = (Ok tt, [Print (PGenerating topic);
             ModelGenerate (prompt (today w) topic data);
             Print PFailedGenerate]).
Proof.
  intros Hd Hk Hr Hp Ht.
  unfold generate_and_post, generate_blog_content.
  rewrite Hd, Hk, Hr, Hp. simpl. now rewrite Ht.
Qed.

Lemma pre_has_no_post (pre : list event) (u a ti co : pystr) :
  Forall (fun e => is_post e = false /\ is_model_call e = false
                   /\ e <> Print PNoData) pre ->
  ~ In (HttpPost u a ti co) pre.
Proof.
  intros F H. rewrite Forall_forall in F.
  destruct (F _ H) as [E _]. discriminate E.
Qed.


(** X13.  When the request of a run raises, the run ends with an
    uncaught exception instead of the publisher's False. *)
Theorem X13_request_exception_leaves_run
    (cfg : config) (w : world) (u a ti co : pystr) :
  In (HttpPost u a ti co) (run_trace (run cfg w)) ->
  wp_reply w u a ti co = PostRaised ->
  run_result (run cfg w) = Raise.
Proof.
  intros Hin Hr.
  destruct (main_cases cfg w) as [(_ & _ & E)|(m & topic & data & pre & _ & F & E)];
    rewrite E in *; unfold run_trace, run_result in *; simpl in Hin |- *.
  - intuition discriminate.
  - apply in_app_or in Hin as [Hin|Hin];
      [now apply pre_has_no_post in Hin|].
    now apply (tail_post_facts cfg w topic data u a ti co Hin).
Qed.

(** X14.  A run calls the model at most once and posts at most once:
    nothing is retried. *)
Theorem X14_at_most_one_call_and_one_post (cfg : config) (w : world) :
  (List.length (filter is_model_call (run_trace (run cfg w))) <= 1)%nat
  /\ (List.length (filter is_post (run_trace (run cfg w))) <= 1)%nat.
Proof.
  destruct (main_cases cfg w) as [(_ & _ & E)|(m & topic & data & pre & _ & F & E)];
    rewrite E; unfold run_trace; simpl snd.
  - simpl. lia.
  - rewrite !filter_app.
    rewrite (filter_none _ is_model_call pre), (filter_none _ is_post pre).
    + apply tail_counts.
    + eapply Forall_impl; [|exact F]. now intros e (H & _).
    + eapply Forall_impl; [|exact F]. now intros e (_ & H & _).
Qed.

(** X15.  Whatever is posted has a non-empty title and a non-empty
    body, goes to WP_URL + "/wp-json/wp/v2/posts" and carries
    "Basic " + base64("user:password") of the configured credentials;
    and when the API key is set, the title and body are the parse of
    the model's reply to the one prompt of the run. *)
Theorem X15_posted_content_is_parsed_reply
    (cfg : config) (w : world) (u a ti co : pystr) :
  In (HttpPost u a ti co) (run_trace (run cfg w)) ->
  truthy ti = true /\ truthy co = true
  /\ u = fmt_opt (WP_URL cfg) ++ py "/wp-json/wp/v2/posts"
  /\ a = py "Basic "
         ++ b64encode (fmt_opt (WP_USERNAME cfg) ++ py ":"
                       ++ fmt_opt (WP_APP_PASSWORD cfg))
  /\ (truthy_opt (GEMINI_API_KEY cfg) = true ->
      exists p text,
        In (ModelGenerate p) (run_trace (run cfg w))
        /\ model_reply w p = Some text
        /\ Parser.parse_response text = Some (ti, co)).
Proof.
  intros Hin.
  destruct (main_cases cfg w) as [(_ & _ & E)|(m & topic & data & pre & _ & F & E)];
    rewrite E in *; unfold run_trace in *; simpl snd in *.
  - simpl in Hin. intuition discriminate.
  - apply in_app_or in Hin as [Hin|Hin];
      [now apply pre_has_no_post in Hin|].
    destruct (tail_post_facts cfg w topic data u a ti co Hin)
      as (H1 & H2 & _ & _ & _ & H6 & H7 & _ & H9).
    repeat (split; [assumption|]).
    intro Hk. destruct (H9 Hk) as (text & Ht & Hp & Hm).
    exists (prompt (today w) topic data), text.
    split; [apply in_or_app; now right|]. now split.
Qed.


(** X17.  The "No data collected" exit of [main] is never taken: the
    scraper always returns a non-empty string, error text included, and
    the market context is never empty. *)
Theorem X17_no_data_exit_is_dead (cfg : config) (w : world) :
  ~ In (Print PNoData) (run_trace (run cfg w)).
Proof.
  destruct (main_cases cfg w)
    as [(_ & _ & E)|(m & topic & data & pre & Hd & F & E)];
    rewrite E; unfold run_trace; simpl snd; intro Hin.
  - simpl in Hin. intuition discriminate.
  - apply in_app_or in Hin as [Hin|Hin].
    + rewrite Forall_forall in F. destruct (F _ Hin) as (_ & _ & H). now apply H.
    + now apply (tail_no_data_print cfg w topic data Hd).
Qed.

(** X18.  A Sunday or Monday run whose news fetch fails goes on: with
    the API key set, the model is asked for a post whose context data is
    the text "Error fetching news.". *)
Theorem X18_failed_fetch_still_prompts_model (cfg : config) (w : world) :
  select_mode (weekday (now_day w)) = NEWS ->
  finance_page w = Scraper.FetchRaised ->
  truthy_opt (GEMINI_API_KEY cfg) = true ->
  In (ModelGenerate
        (prompt (today w) (py "Global Financial Market News & Updates")
           (py "Error fetching news.")))
     (run_trace (run cfg w)).
Proof.
  intros Hm Hf Hk. unfold main. rewrite Hm, Hf. simpl.
  unfold generate_and_post, generate_blog_content. simpl.
  rewrite Hk. simpl.
  repeat break_inner_match; split_bools; unfold run_trace; simpl; auto 10.
Qed.

(** X19.  A reply that parses to an empty title or an empty body is
    not published: the run ends normally without any post. *)
Theorem X19_empty_title_or_body_not_published
    (cfg : config) (w : world) (text ti co : pystr) :
  truthy_opt (GEMINI_API_KEY cfg) = true ->
  (forall p, model_reply w p = Some text) ->
  Parser.parse_response text = Some (ti, co) ->
  truthy ti && truthy co = false ->
  existsb is_post (run_trace (run cfg w)) = false
  /\ run_result (run cfg w) = Ok tt.
Proof.
  intros Hk Hr Hp Ht.
  destruct (main_cases cfg w)
    as [(_ & _ & E)|(m & topic & data & pre & Hd & F & E)];
    rewrite E; unfold run_trace, run_result; simpl.
  - split; reflexivity.
  - rewrite (tail_unusable_reply cfg w topic data text ti co Hd Hk (Hr _) Hp Ht).
    simpl. split; [|reflexivity].
    rewrite existsb_app. simpl. rewrite orb_false_r.
    apply not_true_is_false. intro Hx.
    apply existsb_exists in Hx as (e & He & Hx).
    rewrite Forall_forall in F. destruct (F e He) as (Hy & _). congruence.
Qed.

End MoreRunFacts.

(** ** Concrete runs for the properties above *)


Lemma X13_request_exception_witness :
  let cfg := {| WP_URL := Some (py "https://blog.example");
                WP_USERNAME := Some (py "bot");
                WP_APP_PASSWORD := Some (py "secret");
                GEMINI_API_KEY := Some (py "k") |} in
  let w := {| now_day := Monday; today := py "2024-01-08";
              history := @nil (bar pystr);
              finance_page := Scraper.FetchRaised;
              model_reply := fun _ =>
                Some (py "Title: T" ++ nl :: py "Content:" ++ nl :: py "B");
              wp_reply := fun _ _ _ _ => PostRaised |} in
  let r := main (fun t => t) (fun _ => py "0.0") (fun s => s) cfg w in
  In (HttpPost (py "https://blog.example/wp-json/wp/v2/posts")
        (py "Basic bot:secret") (py "T") (py "B")) (run_trace r)
  /\ run_result r = Raise.
Proof.
  intros cfg w r.
  assert (H : In (HttpPost (py "https://blog.example/wp-json/wp/v2/posts")
                    (py "Basic bot:secret") (py "T") (py "B")) (run_trace r)).
  { vm_compute. repeat first [left; reflexivity | right]. }
  split; [exact H|].
  exact (X13_request_exception_leaves_run pystr (fun t => t) (fun _ => py "0.0")
           (fun s => s) cfg w _ _ _ _ H eq_refl).
Defined.

Lemma X15_posted_content_witness :
  let cfg := {| WP_URL := Some (py "https://blog.example");
                WP_USERNAME := Some (py "bot");
                WP_APP_PASSWORD := Some (py "secret");
                GEMINI_API_KEY := Some (py "k") |} in
  let w := {| now_day := Sunday; today := py "2024-01-07";
              history := @nil (bar pystr);
              finance_page := Scraper.FetchRaised;
              model_reply := fun _ =>
                Some (py "Title: T" ++ nl :: py "Content:" ++ nl :: py "B");
              wp_reply := fun _ _ _ _ => PostOk None |} in
  let r := main (fun t => t) (fun _ => py "0.0") (fun s => s) cfg w in
  In (HttpPost (py "https://blog.example/wp-json/wp/v2/posts")
        (py "Basic bot:secret") (py "T") (py "B")) (run_trace r)
  /\ truthy (py "T") = true /\ truthy (py "B") = true.
Proof.
  intros cfg w r.
  assert (H : In (HttpPost (py "https://blog.example/wp-json/wp/v2/posts")
                    (py "Basic bot:secret") (py "T") (py "B")) (run_trace r)).
  { vm_compute. repeat first [left; reflexivity | right]. }
  split; [exact H|].
  destruct (X15_posted_content_is_parsed_reply pystr (fun t => t)
              (fun _ => py "0.0") (fun s => s) cfg w _ _ _ _ H)
    as (H1 & H2 & _).
  split; [exact H1|exact H2].
Defined.


Lemma X18_failed_fetch_witness :
  let cfg := {| WP_URL := None; WP_USERNAME := None;
                WP_APP_PASSWORD := None;
                GEMINI_API_KEY := Some (py "k") |} in
  let w := {| now_day := Monday; today := py "2024-01-08";
              history := @nil (bar pystr);
              finance_page := Scraper.FetchRaised;
              model_reply := fun _ => None;
              wp_reply := fun _ _ _ _ => PostOk None |} in
  let r := main (fun t => t) (fun _ => py "0.0") (fun s => s) cfg w in
  In (ModelGenerate
        (prompt (py "2024-01-08") (py "Global Financial Market News & Updates")
           (py "Error fetching news.")))
     (run_trace r).
Proof.
  intros cfg w r.
  exact (X18_failed_fetch_still_prompts_model pystr (fun t => t)
           (fun _ => py "0.0") (fun s => s) cfg w eq_refl eq_refl eq_refl).
Defined.

Lemma X19_empty_body_witness :
  let cfg := {| WP_URL := Some (py "https://blog.example");
                WP_USERNAME := Some (py "bot");
                WP_APP_PASSWORD := Some (py "secret");
                GEMINI_API_KEY := Some (py "k") |} in
  let text := py "Title: Rally" ++ nl :: py "Content: <p>Up.</p>" in
  let w := {| now_day := Sunday; today := py "2024-01-07";
              history := @nil (bar pystr);
              finance_page := Scraper.FetchRaised;
              model_reply := fun _ => Some text;
              wp_reply := fun _ _ _ _ => PostOk None |} in
  let r := main (fun t => t) (fun _ => py "0.0") (fun s => s) cfg w in
  Parser.parse_response text = Some (py "Rally", [])
  /\ existsb is_post (run_trace r) = false
  /\ run_result r = Ok tt.
Proof.
  intros cfg text w r.
  assert (Hp : Parser.parse_response text = Some (py "Rally", []))
    by reflexivity.
  split; [exact Hp|].
  exact (X19_empty_title_or_body_not_published pystr (fun t => t)
           (fun _ => py "0.0") (fun s => s) cfg w text (py "Rally") []
           eq_refl (fun _ => eq_refl) Hp eq_refl).
Defined.
